(** * RekomendationAnime: the Streamlit front end [app.py]

    A shallow embedding of [src/app.py]: the catalog loader [load_data], the
    card renderer [display_anime_card] and the page script [main], over a
    small model of the pandas frames and of the Streamlit calls they use.
    The recommendation core ([Model/rekomendasi.py]) is not part of the
    sources at hand; where a property depends on it, it is modelled from the
    specification and marked as such. *)

From Stdlib Require Import Ascii String QArith Reals Lra.
From stdpp Require Import base option list strings gmap fin_maps sorting.

Local Open Scope Z_scope.
Local Open Scope string_scope.
Local Open Scope list_scope.

(** ** Python values *)

(** Python floats.  The script only uses the literals [0] and [1.0] and, in
    the ranking, the order on similarities; the interface is kept abstract so
    that the same definitions run on rationals and are stated on reals. *)
Class Float := {
  float : Type;
  f_zero : float;
  f_one : float;
  f_leb : float -> float -> bool
}.

(** What the script takes from the Python runtime, from pandas and from
    Streamlit: [str.lower]; the text parser behind [pd.to_numeric] ([None]
    when the text is not a number, or is a spelling of NaN); [str] of a float;
    the text of the [TypeError] that [sorted] raises on a title column that
    mixes texts and floats (the column is given with [None] for what is not a
    text); the text of the exception that [st.image] raises on a reference it
    cannot show, [None] when it shows it (the reference is [None] when it is
    not a text); the text of the exception that a second widget with the same
    key raises. *)
Class Runtime `{Float} := {
  str_lower : string -> string;
  to_numeric_str : string -> option float;
  float_str : float -> string;
  sorted_error : list (option string) -> string;
  image_error : option string -> option string;
  duplicate_key_error : string -> string
}.

Section Frames.
Context `{FL : Float}.

(** A cell of a frame read from CSV: a missing value, a number or a text. *)
Inductive cell :=
| NaN
| Num (x : float)
| Str (s : string).

(** A pandas frame, by column; [df_len] is the length of its index. *)
Record DataFrame := mkDF {
  df_len : nat;
  df_cols : gmap string (list cell)
}.

Definition isna (c : cell) : bool :=
  match c with NaN => true | _ => false end.

Definition notna (c : cell) : bool := negb (isna c).

(** [Series.fillna(v)] *)
Definition fillna (v : cell) (col : list cell) : list cell :=
  (fun c => if isna c then v else c) <$> col.

(** Every column has one entry per index position. *)
Definition df_wf (df : DataFrame) : Prop :=
  forall name col, df_cols df !! name = Some col -> length col = df_len df.

(** [df[name] = col] *)
Definition setitem (name : string) (col : list cell) (df : DataFrame) : DataFrame :=
  {| df_len := df_len df; df_cols := <[name := col]> (df_cols df) |}.

(** Boolean indexing, on one column and on the frame: [df[mask]]. *)
Fixpoint filter_by (mask : list bool) (col : list cell) : list cell :=
  match mask, col with
  | b :: mask', c :: col' =>
      if b then c :: filter_by mask' col' else filter_by mask' col'
  | _, _ => []
  end.

Definition count_true (mask : list bool) : nat := length (filter (fun b => b = true) mask).

Definition df_filter (mask : list bool) (df : DataFrame) : DataFrame :=
  {| df_len := count_true mask; df_cols := filter_by mask <$> df_cols df |}.

(** The row at position [i]. *)
Definition row_at (df : DataFrame) (i : nat) : gmap string cell :=
  omap (fun col : list cell => col !! i) (df_cols df).

(** Position of the first [true] of a mask. *)
Fixpoint first_true (mask : list bool) : option nat :=
  match mask with
  | [] => None
  | b :: mask' => if b then Some 0%nat else S <$> first_true mask'
  end.

End Frames.

(** A row taken out of a frame (a pandas Series indexed by column name). *)
Abbreviation Row := (gmap string cell).

(** ** Exceptions, Streamlit calls and the script monad *)

Inductive exn :=
| KeyError (key : string)
| IndexError (msg : string)
| IOError (msg : string)
| TypeError (msg : string)
| ValueError (msg : string)
| AttributeError (type_name attribute : string)
| ImageError (msg : string)
| DuplicateWidgetKey (msg : string).

(** [str(e)] *)
Definition exn_str (e : exn) : string :=
  match e with
  | KeyError key => "'" ++ key ++ "'"
  | IndexError msg => msg
  | IOError msg => msg
  | TypeError msg => msg
  | ValueError msg => msg
  | AttributeError type_name attribute =>
      "'" ++ type_name ++ "' object has no attribute '" ++ attribute ++ "'"
  | ImageError msg => msg
  | DuplicateWidgetKey msg => msg
  end.

(** How a run of (a part of) the script ends: with a value, with an uncaught
    exception, or halted by [st.stop()]. *)
Inductive outcome (A : Type) :=
| Ret (a : A)
| Raise (e : exn)
| Stop.
Arguments Ret {A} a.
Arguments Raise {A} e.
Arguments Stop {A}.

(** [st.session_state], with the keys the script reads. *)
Record Session := mkSession {
  logged_in : bool;
  username : option string;
  show_recommendations : bool
}.

Inductive Menu := Rekomendasi | Bookmark.

Section Script.
Context {FL : Float} {RT : Runtime}.

(** What a run puts on the page or asks of the modules outside the sources
    ([Modules.login], [Modules.bookmark]); texts are given without their
    pictographs.  A card records what one call to [display_anime_card]
    shows, a card fragment what it has shown when a number cannot be
    formatted: the image, the title, the genres and, if it got that far, the
    rating. *)
Inductive event :=
| PageConfig
| Style (css : string)
| LoginForm
| SidebarUser (name : string)
| LogoutControl
| PageTitle
| ErrorMsg (msg : string)
| WarningMsg (msg : string)
| InfoMsg (msg : string)
| Subheader (text : string)
| SelectedHeader (title : string)
| SelectedImage (image_url : cell)
| SelectedGenre (genres : cell)
| SelectedRating (score : cell)
| SelectedSynopsis (synopsis : cell)
| Card (title genres score similarity synopsis image_url : cell)
| CardFragment (image_url title genres : cell) (rating : option cell)
| AddBookmark (title : cell)
| RemoveBookmarks (titles : list string).

(** A script step reads and writes the session, appends to the page and may
    raise or stop. *)
Definition M (A : Type) : Type := Session -> list event * Session * outcome A.

Definition ret {A} (a : A) : M A := fun s => ([], s, Ret a).

Definition bind {A B} (m : M A) (f : A -> M B) : M B := fun s =>
  match m s with
  | (ev1, s1, Ret a) =>
      match f a s1 with (ev2, s2, o) => (ev1 ++ ev2, s2, o) end
  | (ev1, s1, Raise e) => (ev1, s1, Raise e)
  | (ev1, s1, Stop) => (ev1, s1, Stop)
  end.

Definition emit (e : event) : M unit := fun s => ([e], s, Ret tt).
Definition raise {A} (e : exn) : M A := fun s => ([], s, Raise e).
Definition st_stop {A} : M A := fun s => ([], s, Stop).
Definition get_session : M Session := fun s => ([], s, Ret s).
Definition put_session (s' : Session) : M unit := fun _ => ([], s', Ret tt).

(** [try: body  except Exception as e: handler(e)]; [st.stop()] is not an
    [Exception] and passes through. *)
Definition try_except {A} (body : M A) (handler : exn -> M A) : M A := fun s =>
  match body s with
  | (ev1, s1, Raise e) =>
      match handler e s1 with (ev2, s2, o) => (ev1 ++ ev2, s2, o) end
  | r => r
  end.

(** The similarity that an element of the page shows, if it is a card. *)
Definition shows_similarity (v : cell) (e : event) : Prop :=
  match e with
  | Card _ _ _ similarity _ _ => similarity = v
  | _ => True
  end.

#[export] Instance M_ret : MRet M := @ret.
#[export] Instance M_bind : MBind M := fun A B f m => bind m f.

End Script.


(** ** The script *)

Section App.
Context {FL : Float} {RT : Runtime}.

(** [build_model] of [Model/rekomendasi.py]: the similarity matrix of a
    catalog.  [not_found_message]: the text that [recommend_anime] returns
    for a title it does not find. *)
Variable build_model : DataFrame -> list (list float).
Variable not_found_message : string -> string.

(** What one run of the script receives from outside: the two files it
    opens, the state of the widgets and the stored bookmarks
    ([get_bookmarks()]). *)
Record Inputs := mkInputs {
  css_file : exn + string;
  csv_file : exn + DataFrame;
  menu_choice : Menu;
  selected_anime : string;
  slider_pos : option Z;
  recommend_clicked : bool;
  bookmark_clicked : cell -> bool;
  stored_bookmarks : list string;
  selected_to_delete : list string;
  delete_clicked : bool
}.

Definition placeholder : string :=
  "https://via.placeholder.com/150x200?text=No+Image".

(** [df[name]] and [row[name]] *)
Definition getitem (df : DataFrame) (name : string) : M (list cell) :=
  match df_cols df !! name with
  | Some col => mret col
  | None => raise (KeyError name)
  end.

Definition getfield (r : Row) (name : string) : M cell :=
  match r !! name with
  | Some c => mret c
  | None => raise (KeyError name)
  end.

(** [df.iloc[0]] *)
Definition iloc0 (df : DataFrame) : M Row :=
  match df_len df with
  | O => raise (IndexError "single positional indexer is out-of-bounds")
  | S _ => mret (row_at df 0)
  end.

(** [pd.to_numeric(..., errors='coerce')], on one cell. *)
Definition to_numeric (c : cell) : cell :=
  match c with
  | NaN => NaN
  | Num x => Num x
  | Str s => match to_numeric_str s with Some x => Num x | None => NaN end
  end.

(** [str(x).startswith('http')]: the text of a missing value is [nan] and
    that of a number starts with a digit, a sign, [i] or [n]. *)
Definition startswith_http (x : cell) : bool :=
  match x with
  | Str s => String.prefix "http" s
  | _ => false
  end.

(** The lambda applied to the image column. *)
Definition image_or_placeholder (x : cell) : cell :=
  if startswith_http x then x else Str placeholder.

(** [Series.str.lower()] on one cell, and [cell == text]. *)
Definition cell_lower (c : cell) : cell :=
  match c with
  | Str s => Str (str_lower s)
  | _ => NaN
  end.

Definition cell_eq_str (c : cell) (t : string) : bool :=
  match c with
  | Str s => bool_decide (s = t)
  | _ => false
  end.

Definition read_csv (inp : Inputs) : M DataFrame :=
  match csv_file inp with
  | inl e => raise e
  | inr df => mret df
  end.

(** The body of the [try] of [load_data]. *)
Definition load_body (inp : Inputs) : M DataFrame :=
  df ← read_csv inp;
  score ← getitem df "score";
  let df := setitem "score" (fillna (Num f_zero) (to_numeric <$> score)) df in
  genres ← getitem df "genres";
  let df := setitem "genres" (fillna (Str "Unknown") genres) df in
  let df :=
    match df_cols df !! "image_url" with
    | None => setitem "image_url" (replicate (df_len df) (Str placeholder)) df
    | Some _ => df
    end in
  image_url ← getitem df "image_url";
  let df := setitem "image_url" (image_or_placeholder <$> image_url) df in
  synopsis_clean ← getitem df "synopsis_clean";
  let df := setitem "synopsis_clean" (fillna (Str "") synopsis_clean) df in
  mret df.

Definition load_data (inp : Inputs) : M DataFrame :=
  try_except (load_body inp)
    (fun e => emit (ErrorMsg ("Gagal memuat dataset: " ++ exn_str e));; st_stop).

Definition local_css (inp : Inputs) : M unit :=
  match css_file inp with
  | inl e => raise e
  | inr content => emit (Style content)
  end.

(** [str(x)] of a cell. *)
Definition py_str (c : cell) : string :=
  match c with
  | NaN => "nan"
  | Num x => float_str x
  | Str t => t
  end.

Definition as_text (c : cell) : option string :=
  match c with
  | Str t => Some t
  | _ => None
  end.

(** [st.image(image)]: raises when Streamlit cannot show the reference. *)
Definition st_image (image : cell) : M unit :=
  match image_error (as_text image) with
  | Some msg => raise (ImageError msg)
  | None => mret tt
  end.

(** The key of the bookmark button of a card. *)
Definition bookmark_key (title : cell) : string := "bookmark_" ++ py_str title.

(** [display_anime_card]; [registered] are the keys of the bookmark buttons
    that the run has drawn so far, and the result those it has drawn after
    the card.  The image comes first and may fail; [f"{score:.2f}"] and
    [f"{similarity:.2f}"] raise on a text; the button is drawn for a logged-in
    reader only, and raises when its key is taken. *)
Definition display_anime_card (inp : Inputs) (registered : list string)
    (title genres score similarity synopsis image_url : cell) : M (list string) :=
  st_image image_url;;
  match score with
  | Str _ =>
      emit (CardFragment image_url title genres None);;
      raise (ValueError "Unknown format code 'f' for object of type 'str'")
  | _ =>
      match similarity with
      | Str _ =>
          emit (CardFragment image_url title genres (Some score));;
          raise (ValueError "Unknown format code 'f' for object of type 'str'")
      | _ =>
          emit (Card title genres score similarity
                  (if notna synopsis then synopsis else Str "Sinopsis tidak tersedia")
                  image_url);;
          s ← get_session;
          if logged_in s then
            if bool_decide (bookmark_key title ∈ registered)
            then raise (DuplicateWidgetKey (duplicate_key_error (bookmark_key title)))
            else
              (if bookmark_clicked inp title then emit (AddBookmark title) else mret tt);;
              mret (bookmark_key title :: registered)
          else mret registered
      end
  end.

(** [for x in l: body(x)], with what the body hands from one turn to the
    next. *)
Fixpoint fold_each {A S} (l : list A) (acc : S) (body : S -> A -> M S) : M S :=
  match l with
  | [] => mret acc
  | x :: l' => acc' ← body acc x; fold_each l' acc' body
  end.

(** [df.iterrows()] *)
Definition iterrows (df : DataFrame) : list Row :=
  row_at df <$> seq 0 (df_len df).

(** [st.slider(min_value, max_value, value)]: the widget holds [value] until
    it is moved, and goes back to [value] when the position it holds is not
    between the two bounds. *)
Definition st_slider (min_value max_value value : Z) (pos : option Z) : Z :=
  match pos with
  | None => value
  | Some p => if ((min_value <=? p) && (p <=? max_value))%Z then p else value
  end.

(** What [st.selectbox] returns: nothing when there is no option, one of the
    options otherwise, a text or not. *)
Inductive selection :=
| NoOption
| Text (t : string)
| NotText.

(** [sorted] on texts, by insertion. *)
Fixpoint insert_sorted (t : string) (l : list string) : list string :=
  match l with
  | [] => [t]
  | u :: l' => if String.leb t u then t :: u :: l' else u :: insert_sorted t l'
  end.

Definition sorted (l : list string) : list string := foldr insert_sorted [] l.

(** [sorted(df['title'].unique())]: the distinct texts in order when the
    column holds only texts; a [TypeError] when it holds texts and other
    values, which [sorted] cannot compare; no text to offer ([None]) when it
    holds no text at all but other values. *)
Definition title_options (titles : list cell) : M (option (list string)) :=
  match omap as_text titles with
  | [] =>
      match titles with
      | [] => mret (Some [])
      | _ :: _ => mret None
      end
  | t :: texts =>
      if forallb (fun c => bool_decide (is_Some (as_text c))) titles
      then mret (Some (sorted (remove_dups (t :: texts))))
      else raise (TypeError (sorted_error (as_text <$> titles)))
  end.

(** [st.selectbox(label, options)]: the option that the widget holds, and the
    first one when it holds none of them. *)
Definition st_selectbox (options : option (list string)) (held : string) : selection :=
  match options with
  | None => NotText
  | Some [] => NoOption
  | Some (first :: rest) =>
      if bool_decide (held ∈ first :: rest) then Text held else Text first
  end.

(** The mask [df['title'].str.lower() == query.lower()]. *)
Definition lower_mask (query : string) (titles : list cell) : list bool :=
  (fun c => cell_eq_str (cell_lower c) (str_lower query)) <$> titles.

(** The mask [df['title'] == title]. *)
Definition exact_mask (title : string) (titles : list cell) : list bool :=
  (fun c => cell_eq_str c title) <$> titles.

(** *** The recommender, from the specification *)

(** Modelled from the spec: step 1 of [recommend_anime]
    ([Model/rekomendasi.py], not among the sources): the index of the first
    item whose title equals the query when both are put in lower case. *)
Definition resolve_title (query : string) (df : DataFrame) : option nat :=
  first_true (lower_mask query (default [] (df_cols df !! "title"))).

(** Modelled from the spec: step 3 of [recommend_anime], a stable sort by
    descending similarity.  An entry is put before the first one that does
    not beat it, so equal scores keep the order of the catalog. *)
Fixpoint insert_desc (x : nat * float) (l : list (nat * float)) : list (nat * float) :=
  match l with
  | [] => [x]
  | y :: l' => if f_leb y.2 x.2 then x :: y :: l' else y :: insert_desc x l'
  end.

(** Modelled from the spec: the ranking of step 3, by insertion from the
    right. *)
Definition rank_desc (l : list (nat * float)) : list (nat * float) :=
  foldr insert_desc [] l.

(** Modelled from the spec: the frame of step 4 holds the rows of the catalog
    at the given positions, in that order. *)
Definition df_take (idxs : list nat) (df : DataFrame) : DataFrame :=
  {| df_len := length idxs;
     df_cols := (fun col : list cell => omap (fun i => col !! i) idxs) <$> df_cols df |}.

(** Modelled from the spec: [recommend_anime] of [Model/rekomendasi.py], which
    is not among the sources.  Steps 1 to 4 of the specification: resolve the
    title, read the row of the matrix, rank the other items, keep [top_n];
    the result is either the text of the not-found signal or the frame of the
    ranked items with their similarity. *)
Definition recommend_anime (query : string) (cosine_sim : list (list float))
    (df : DataFrame) (top_n : Z) : string + DataFrame :=
  match resolve_title query df with
  | None => inl (not_found_message query)
  | Some idx =>
      let row := default [] (cosine_sim !! idx) in
      let others := filter (fun p : nat * float => p.1 ≠ idx) (imap pair row) in
      let top := take (Z.to_nat top_n) (rank_desc others) in
      inr (setitem "similarity" (Num <$> top.*2) (df_take top.*1 df))
  end.

(** *** The page *)

(** [df[df['title'].str.lower() == query.lower()].iloc[0]] *)
Definition selected_lookup (df : DataFrame) (query : string) : M Row :=
  titles ← getitem df "title";
  iloc0 (df_filter (lower_mask query titles) df).

(** The selectbox of the sidebar:
    [st.selectbox(..., sorted(df['title'].unique()))]. *)
Definition select_title (inp : Inputs) (df : DataFrame) : M selection :=
  titles ← getitem df "title";
  options ← title_options titles;
  mret (st_selectbox options (selected_anime inp)).

(** The button of the sidebar. *)
Definition request_step (inp : Inputs) : M unit :=
  if recommend_clicked inp then
    s ← get_session;
    put_session {| logged_in := logged_in s; username := username s;
                   show_recommendations := true |}
  else mret tt.

(** What the page makes of the result of [recommend_anime]: a text is shown
    as a warning; a frame is shown under the panel of the selected item, one
    card per row. *)
Definition recommendations_page (inp : Inputs) (df : DataFrame)
    (selected_anime : string) (recommendations : string + DataFrame) : M unit :=
  match recommendations with
  | inl recommendations => emit (WarningMsg recommendations)
  | inr recommendations =>
      selected_info ← selected_lookup df selected_anime;
      emit (SelectedHeader selected_anime);;
      image_url ← getfield selected_info "image_url";
      st_image image_url;;
      emit (SelectedImage image_url);;
      genres ← getfield selected_info "genres";
      emit (SelectedGenre genres);;
      score ← getfield selected_info "score";
      emit (SelectedRating score);;
      synopsis ← getfield selected_info "synopsis";
      emit (SelectedSynopsis
              (if notna synopsis then synopsis else Str "Sinopsis tidak tersedia"));;
      emit (Subheader "Rekomendasi Untuk Anda");;
      fold_each (iterrows recommendations) [] (fun registered row =>
        title ← getfield row "title";
        genres ← getfield row "genres";
        score ← getfield row "score";
        similarity ← getfield row "similarity";
        synopsis ← getfield row "synopsis";
        image_url ← getfield row "image_url";
        display_anime_card inp registered title genres score similarity synopsis image_url);;
      mret tt
  end.

(** Modelled from the spec: the query that [recommend_anime] receives.  Its
    contract takes a text, and step 1 puts the query in lower case; a
    selection that is no text (no option, or an option that is a float) is
    taken to fail there. *)
Definition query_of (selected : selection) : M string :=
  match selected with
  | Text t => mret t
  | NoOption => raise (AttributeError "NoneType" "lower")
  | NotText => raise (AttributeError "float" "lower")
  end.

(** The recommendation menu: the selectbox, the slider and the button of the
    sidebar, then the recommendations once they have been asked for. *)
Definition rekomendasi_view (inp : Inputs) (df : DataFrame)
    (cosine_sim : list (list float)) : M unit :=
  selected_anime ← select_title inp df;
  let top_n := st_slider 1 10 5 (slider_pos inp) in
  request_step inp;;
  s ← get_session;
  if show_recommendations s then
    query ← query_of selected_anime;
    recommendations_page inp df query (recommend_anime query cosine_sim df top_n)
  else mret tt.

(** [df[df['title'] == title].iloc[0]] *)
Definition bookmark_lookup (df : DataFrame) (title : string) : M Row :=
  titles ← getitem df "title";
  iloc0 (df_filter (exact_mask title titles) df).

(** One turn of the loop over the bookmarks; [registered] as for
    [display_anime_card]. *)
Definition bookmark_card (inp : Inputs) (df : DataFrame)
    (registered : list string) (title : string) : M (list string) :=
  anime ← bookmark_lookup df title;
  title ← getfield anime "title";
  genres ← getfield anime "genres";
  score ← getfield anime "score";
  synopsis ← getfield anime "synopsis";
  image_url ← getfield anime "image_url";
  display_anime_card inp registered title genres score (Num f_one) synopsis image_url.

Definition bookmark_view (inp : Inputs) (df : DataFrame) : M unit :=
  emit (Subheader "Daftar Bookmark Anda");;
  let bookmarks := stored_bookmarks inp in
  match bookmarks with
  | [] => emit (InfoMsg "Bookmark Anda masih kosong.")
  | _ :: _ =>
      (if delete_clicked inp then
         match selected_to_delete inp with
         | [] => emit (InfoMsg "Tidak ada bookmark yang dipilih untuk dihapus.")
         | _ :: _ => emit (RemoveBookmarks (selected_to_delete inp))
         end
       else mret tt);;
      fold_each bookmarks [] (bookmark_card inp df);;
      mret tt
  end.

Definition main (inp : Inputs) : M unit :=
  emit PageConfig;;
  local_css inp;;
  s ← get_session;
  if negb (logged_in s) then emit LoginForm
  else
    match username s with
    | None => raise (KeyError "username")
    | Some name =>
        emit (SidebarUser name);;
        emit LogoutControl;;
        emit PageTitle;;
        df ← load_data inp;
        let cosine_sim := build_model df in
        match menu_choice inp with
        | Rekomendasi => rekomendasi_view inp df cosine_sim
        | Bookmark => bookmark_view inp df
        end
    end.

End App.

(** ** A runtime to compute with

    Rationals for the floats, the ASCII case mapping for [str.lower] and
    plain decimal numerals for the numeric parser. *)

Definition ascii_lower (c : ascii) : ascii :=
  let n := nat_of_ascii c in
  if (65 <=? n)%nat && (n <=? 90)%nat then ascii_of_nat (n + 32) else c.

Fixpoint ascii_str_lower (s : string) : string :=
  match s with
  | EmptyString => EmptyString
  | String c s' => String (ascii_lower c) (ascii_str_lower s')
  end.

Definition digit_of (c : ascii) : option Z :=
  let n := nat_of_ascii c in
  if (48 <=? n)%nat && (n <=? 57)%nat then Some (Z.of_nat (n - 48)) else None.

(** Reads [digits] or [digits.digits]; [acc] is the number read so far and
    [scale] the power of ten of its denominator once the point is passed. *)
Fixpoint parse_decimal (s : string) (acc : Z) (scale : option positive) (seen : bool) : option Q :=
  match s with
  | EmptyString =>
      if seen then Some (Qmake acc (default 1%positive scale)) else None
  | String c s' =>
      match digit_of c with
      | Some d =>
          parse_decimal s' (10 * acc + d) ((fun p => (10 * p)%positive) <$> scale) true
      | None =>
          if bool_decide (c = "."%char) && seen && bool_decide (scale = None)
          then parse_decimal s' acc (Some 1%positive) false
          else None
      end
  end.

#[export] Instance Q_float : Float :=
  {| float := Q; f_zero := 0%Q; f_one := 1%Q; f_leb := Qle_bool |}.

(** A float as a fraction, for the keys of buttons. *)
Fixpoint digits_of (fuel : nat) (n : N) (acc : string) : string :=
  match fuel with
  | O => acc
  | S fuel' =>
      let d := String (ascii_of_N (48 + N.modulo n 10)) acc in
      if (n <? 10)%N then d else digits_of fuel' (N.div n 10) d
  end.

Definition Z_str (z : Z) : string :=
  let digits := digits_of (S (N.to_nat (N.log2 (Z.abs_N z)))) (Z.abs_N z) "" in
  if (z <? 0)%Z then ("-" ++ digits)%string else digits.

Definition Q_str (q : Q) : string :=
  (Z_str (Qnum q) ++ "/" ++ Z_str (Zpos (Qden q)))%string.

(** [st.image] shows the web addresses. *)
Definition web_image_error (reference : option string) : option string :=
  match reference with
  | Some t =>
      if String.prefix "http://" t || String.prefix "https://" t then None
      else Some ("Error opening '" ++ t ++ "'")%string
  | None => Some "Image format not supported"
  end.

#[export] Instance Q_runtime : Runtime :=
  {| str_lower := ascii_str_lower;
     to_numeric_str := fun s => parse_decimal s 0 None false;
     float_str := Q_str;
     sorted_error := fun _ => "'<' not supported between instances of 'float' and 'str'";
     image_error := web_image_error;
     duplicate_key_error := fun key =>
       ("There are multiple widgets with the same key '" ++ key ++ "'")%string |}.

(** A frame from its columns. *)
Definition frame (n : nat) (cols : list (string * list cell)) : DataFrame :=
  {| df_len := n; df_cols := list_to_map cols |}.


(** ** The similarity matrix, from the specification

    [build_model] is not among the sources.  The specification gives its
    second half, the matrix builder, as a formula on real vectors. *)

Section Similarity.
Local Open Scope R_scope.

Definition dot (a b : list R) : R := foldr Rplus 0 (zip_with Rmult a b).

Definition norm (a : list R) : R := sqrt (dot a a).

Definition is_zero (x : R) : bool := if Req_dec_T x 0 then true else false.

(** Modelled from the spec: the similarity of two vectors as the matrix
    builder of [Model/rekomendasi.py] (not among the sources) computes it:
    [dot(a,b) / (norm(a) * norm(b))], and 0 when either norm is 0. *)
Definition cosine (a b : list R) : R :=
  if is_zero (norm a) || is_zero (norm b) then 0
  else dot a b / (norm a * norm b).

(** Modelled from the spec: [build_similarity_matrix], the similarity of
    every pair of vectors. *)
Definition build_similarity_matrix (vectors : list (list R)) : list (list R) :=
  (fun a => cosine a <$> vectors) <$> vectors.

(** Entry [(i, j)] of a matrix. *)
Definition entry (m : list (list R)) (i j : nat) : option R :=
  row ← m !! i; row !! j.

End Similarity.

(** Reals as the floats of the script. *)
Definition R_float : Float :=
  {| float := R; f_zero := 0%R; f_one := 1%R;
     f_leb := fun x y => if Rle_dec x y then true else false |}.

(** Modelled from the spec: [build_model] of [Model/rekomendasi.py] (not
    among the sources), the matrix of the vectors of the cleaned descriptions.
    The vectorizer (tokens, vocabulary, tf-idf weights) is a parameter. *)
Definition build_model_spec (vectorize : list (@cell R_float) -> list (list R))
    (df : @DataFrame R_float) : list (list R) :=
  build_similarity_matrix (vectorize (default [] (df_cols df !! "synopsis_clean"))).

(** ** The defaults in the words of the specification *)

Section Defaults.
Context {FL : Float} {RT : Runtime}.

(** A missing or non-numeric score becomes 0. *)
Definition score_or_zero (c : cell) : cell :=
  match c with
  | Num x => Num x
  | Str s => match to_numeric_str s with Some x => Num x | None => Num f_zero end
  | NaN => Num f_zero
  end.

(** A missing text becomes the default [d]. *)
Definition text_or (d : string) (c : cell) : cell :=
  match c with
  | NaN => Str d
  | _ => c
  end.

End Defaults.

(** An absolute URI begins with a scheme, a letter followed by letters,
    digits, [+], [-] or [.], then a colon and a non-empty rest (RFC 3986). *)
Definition is_alpha (c : ascii) : bool :=
  let n := nat_of_ascii c in
  ((65 <=? n) && (n <=? 90) || (97 <=? n) && (n <=? 122))%nat.

Definition is_scheme_char (c : ascii) : bool :=
  is_alpha c || bool_decide (is_Some (digit_of c))
  || bool_decide (c = "+"%char) || bool_decide (c = "-"%char) || bool_decide (c = "."%char).

Fixpoint after_scheme (s : string) : bool :=
  match s with
  | EmptyString => false
  | String c s' =>
      if bool_decide (c = ":"%char) then negb (bool_decide (s' = EmptyString))
      else is_scheme_char c && after_scheme s'
  end.

Definition absolute_uri_spec (s : string) : bool :=
  match s with
  | EmptyString => false
  | String c s' => is_alpha c && after_scheme s'
  end.

(** ** Reading a page *)

Section Pages.
Context {FL : Float}.

(** The titles of the cards of a page, in the order shown. *)
Definition card_titles (evs : list event) : list cell :=
  omap (fun e => match e with Card title _ _ _ _ _ => Some title | _ => None end) evs.

(** A cell that holds a number. *)
Definition is_num (c : cell) : bool :=
  match c with Num _ => true | _ => false end.

(** The columns that a card reads from a row of the catalog. *)
Definition has_card_columns (df : DataFrame) : Prop :=
  forall name, name ∈ ["title"; "genres"; "score"; "synopsis"; "image_url"] ->
    is_Some (df_cols df !! name).

(** The title column of a frame. *)
Definition title_column (df : DataFrame) : list cell :=
  default [] (df_cols df !! "title").

(** The same widgets without the press on the recommendation button, as a
    later run of the script finds them. *)
Definition without_click (inp : Inputs) : Inputs :=
  {| css_file := css_file inp;
     csv_file := csv_file inp;
     menu_choice := menu_choice inp;
     selected_anime := selected_anime inp;
     slider_pos := slider_pos inp;
     recommend_clicked := false;
     bookmark_clicked := bookmark_clicked inp;
     stored_bookmarks := stored_bookmarks inp;
     selected_to_delete := selected_to_delete inp;
     delete_clicked := delete_clicked inp |}.

(** The elements of a page other than cards and calls to the bookmark
    store. *)
Definition static (e : event) : Prop :=
  match e with
  | Card _ _ _ _ _ _ | CardFragment _ _ _ _
  | AddBookmark _ | RemoveBookmarks _ => False
  | _ => True
  end.

(** What a run may do to the session it started with: the login and the
    user stay, and recommendations once asked for stay asked for. *)
Definition session_kept (s0 s : Session) : Prop :=
  logged_in s = logged_in s0 /\
  username s = username s0 /\
  (show_recommendations s0 = true -> show_recommendations s = true).

(** A step that, from any session [session_kept] allows, shows a page that
    satisfies [Q] and leaves such a session. *)
Definition respects (Q : list event -> Prop) (s0 : Session) {A} (m : M A) : Prop :=
  forall s, session_kept s0 s -> Q (m s).1.1 /\ session_kept s0 (m s).1.2.

End Pages.

(** A catalog all of whose cards can be drawn. *)
Definition drawable `{Runtime} (df : DataFrame) : Prop :=
  (forall images, df_cols df !! "image_url" = Some images ->
     Forall (fun c => image_error (as_text c) = None) images) /\
  (forall scores, df_cols df !! "score" = Some scores ->
     Forall (fun c => as_text c = None) scores).

(** ** Small catalogs to run the script on *)

Definition example_catalog : DataFrame :=
  frame 3
    [("title", [Str "Naruto"; Str "Bleach"; Str "One Piece"]);
     ("genres", [Str "Action"; NaN; Str "Adventure"]);
     ("score", [Str "8.5"; NaN; Str "n/a"]);
     ("synopsis", [Str "A young ninja."; NaN; Str "Pirates at sea."]);
     ("synopsis_clean", [Str "young ninja"; NaN; Str "pirates sea"]);
     ("image_url",
      [Str "https://cdn.example/naruto.jpg"; NaN; Str "covers/onepiece.jpg"])].

(** A catalog with two titles that differ in case only. *)
Definition twin_catalog : DataFrame :=
  frame 2
    [("title", [Str "Naruto"; Str "NARUTO"]);
     ("genres", [Str "Action"; Str "Parody"]);
     ("score", [Num 8.5%Q; Num 6.1%Q]);
     ("synopsis", [Str "A young ninja."; Str "A spoof."]);
     ("synopsis_clean", [Str "young ninja"; Str "spoof"]);
     ("image_url", [Str "https://cdn.example/a.jpg"; Str "https://cdn.example/b.jpg"])].

(** A catalog whose image references are a file name that starts with
    [http] and an absolute URI of another scheme. *)
Definition odd_images_catalog : DataFrame :=
  frame 2
    [("title", [Str "Naruto"; Str "Bleach"]);
     ("genres", [Str "Action"; Str "Action"]);
     ("score", [Num 8.5%Q; Num 7.9%Q]);
     ("synopsis_clean", [Str "young ninja"; Str "soul reaper"]);
     ("image_url", [Str "httpd_logo.png"; Str "ftp://cdn.example/bleach.jpg"])].

(** A clean catalog one of whose image references is a file name that
    starts with [http]. *)
Definition local_image_catalog : DataFrame :=
  frame 2
    [("title", [Str "Naruto"; Str "Bleach"]);
     ("genres", [Str "Action"; Str "Action"]);
     ("score", [Num 8.5%Q; Num 7.9%Q]);
     ("synopsis", [Str "A young ninja."; Str "A soul reaper."]);
     ("synopsis_clean", [Str "young ninja"; Str "soul reaper"]);
     ("image_url", [Str "httpd_logo.png"; Str "https://cdn.example/bleach.jpg"])].

(** A clean catalog without a title column, and one with a missing
    title. *)
Definition untitled_catalog : DataFrame :=
  frame 1
    [("genres", [Str "Action"]);
     ("score", [Num 8.5%Q]);
     ("synopsis", [Str "A young ninja."]);
     ("synopsis_clean", [Str "young ninja"]);
     ("image_url", [Str "https://cdn.example/naruto.jpg"])].

Definition mixed_titles_catalog : DataFrame :=
  frame 2
    [("title", [Str "Naruto"; NaN]);
     ("genres", [Str "Action"; Str "Action"]);
     ("score", [Num 8.5%Q; Num 7.9%Q]);
     ("synopsis", [Str "A young ninja."; Str "A soul reaper."]);
     ("synopsis_clean", [Str "young ninja"; Str "soul reaper"]);
     ("image_url", [Str "https://cdn.example/a.jpg"; Str "https://cdn.example/b.jpg"])].

Definition example_matrix : list (list Q) :=
  [[1; 0.5; 0]; [0.5; 1; 0.25]; [0; 0.25; 1]]%Q.

Definition example_model (df : DataFrame) : list (list Q) := example_matrix.

Definition example_not_found (query : string) : string :=
  "Anime '" ++ query ++ "' tidak ditemukan.".

Definition example_session : Session :=
  {| logged_in := true; username := Some "wahyu"; show_recommendations := false |}.

Definition example_inputs (csv : exn + DataFrame) (menu : Menu)
    (selected : string) (stored : list string) : Inputs :=
  {| css_file := inr "body {}";
     csv_file := csv;
     menu_choice := menu;
     selected_anime := selected;
     slider_pos := Some 5;
     recommend_clicked := true;
     bookmark_clicked := fun _ => false;
     stored_bookmarks := stored;
     selected_to_delete := [];
     delete_clicked := false |}.

(** A run of the Bookmark view in which the reader presses the bookmark
    button of one card and removes one bookmark. *)
Definition busy_inputs : Inputs :=
  {| css_file := inr "body {}";
     csv_file := inr example_catalog;
     menu_choice := Bookmark;
     selected_anime := "Naruto";
     slider_pos := None;
     recommend_clicked := false;
     bookmark_clicked := fun c => cell_eq_str c "Bleach";
     stored_bookmarks := ["Bleach"; "Naruto"];
     selected_to_delete := ["Naruto"];
     delete_clicked := true |}.

(** A run whose style sheet is missing, and a session before the login. *)
Definition unstyled_inputs : Inputs :=
  {| css_file := inl (IOError "No such file: assets/style.css");
     csv_file := inr example_catalog;
     menu_choice := Rekomendasi;
     selected_anime := "Naruto";
     slider_pos := None;
     recommend_clicked := false;
     bookmark_clicked := fun _ => false;
     stored_bookmarks := [];
     selected_to_delete := [];
     delete_clicked := false |}.

Definition anonymous_session : Session :=
  {| logged_in := false; username := None; show_recommendations := false |}.

(** The catalog after [load_data]. *)
Definition loaded_catalog : DataFrame :=
  frame 3
    [("title", [Str "Naruto"; Str "Bleach"; Str "One Piece"]);
     ("genres", [Str "Action"; Str "Unknown"; Str "Adventure"]);
     ("score", [Num 8.5%Q; Num 0%Q; Num 0%Q]);
     ("synopsis", [Str "A young ninja."; NaN; Str "Pirates at sea."]);
     ("synopsis_clean", [Str "young ninja"; Str ""; Str "pirates sea"]);
     ("image_url",
      [Str "https://cdn.example/naruto.jpg"; Str placeholder; Str placeholder])].

(** ** Facts about frames *)

Section FrameFacts.
Context `{FL : Float}.

Lemma first_true_Some (mask : list bool) (i : nat) :
  first_true mask = Some i <->
  mask !! i = Some true /\ forall j, (j < i)%nat -> mask !! j = Some false.
Proof.
  revert i. induction mask as [|b mask IH]; intros i; simpl.
  - split; [discriminate | intros [? _]; discriminate].
  - destruct b.
    + split.
      * intros [= <-]. split; [done | lia].
      * intros [Hi Hlt]. destruct i as [|i]; [done |].
        specialize (Hlt 0%nat ltac:(lia)). discriminate.
    + destruct i as [|i]; simpl.
      * split; [| intros [? _]; discriminate].
        destruct (first_true mask); discriminate.
      * assert (S <$> first_true mask = Some (S i) <-> first_true mask = Some i) as ->.
        { destruct (first_true mask); simpl; split; congruence. }
        rewrite IH. split; intros [Hi Hlt]; (split; [done |]).
        -- intros [|j] Hj; [done |]. apply Hlt. lia.
        -- intros j Hj. apply (Hlt (S j)). lia.
Qed.

Lemma first_true_None (mask : list bool) :
  first_true mask = None <-> forall j, mask !! j <> Some true.
Proof.
  induction mask as [|b mask IH]; simpl.
  - split; [intros _ j; by rewrite lookup_nil | done].
  - destruct b.
    + split; [discriminate |]. intros H. by destruct (H 0%nat).
    + destruct (first_true mask) as [k|]; simpl.
      * split; [discriminate |]. intros H.
        destruct IH as [_ IH]. discriminate IH. intros j. apply (H (S j)).
      * split; [| done]. intros _ [|j]; [done |]. simpl. by apply IH.
Qed.

Lemma count_true_0 (mask : list bool) :
  count_true mask = 0%nat <-> first_true mask = None.
Proof.
  unfold count_true. induction mask as [|b mask IH]; simpl; [done |].
  destruct b.
  - rewrite filter_cons_True by done. simpl. split; discriminate.
  - rewrite filter_cons_False by done. rewrite IH.
    destruct (first_true mask); simpl; split; done.
Qed.

Lemma filter_by_head (mask : list bool) (col : list cell) (i : nat) :
  first_true mask = Some i -> filter_by mask col !! 0%nat = col !! i.
Proof.
  revert col i. induction mask as [|b mask IH]; intros col i; simpl; [done |].
  destruct col as [|c col].
  - intros _. by rewrite lookup_nil.
  - destruct b.
    + by intros [= <-].
    + destruct (first_true mask) as [k|] eqn:Hk; simpl; [| done].
      intros [= <-]. simpl. by apply IH.
Qed.

Lemma row_at_filter (mask : list bool) (df : DataFrame) (i : nat) :
  first_true mask = Some i -> row_at (df_filter mask df) 0 = row_at df i.
Proof.
  intros Hi. unfold row_at, df_filter. simpl. apply map_eq. intros name.
  rewrite !lookup_omap, lookup_fmap.
  destruct (df_cols df !! name) as [col|]; simpl; [| done].
  by apply filter_by_head.
Qed.

Lemma fillna_lookup (v : cell) (col : list cell) (i : nat) :
  fillna v col !! i = (fun c => if isna c then v else c) <$> col !! i.
Proof. unfold fillna. apply list_lookup_fmap. Qed.

Lemma fillna_notna (v : cell) (col : list cell) :
  isna v = false -> Forall (fun c => isna c = false) (fillna v col).
Proof.
  intros Hv. unfold fillna. apply Forall_fmap, Forall_forall.
  intros c _. simpl. by destruct (isna c) eqn:Hc.
Qed.

Lemma row_at_lookup (df : DataFrame) (i : nat) (name : string) :
  row_at df i !! name = df_cols df !! name ≫= (fun col => col !! i).
Proof. unfold row_at. by rewrite lookup_omap. Qed.

End FrameFacts.

(** ** Facts about the script *)

Section AppFacts.
Context {FL : Float} {RT : Runtime}.
Variable build_model : DataFrame -> list (list float).
Variable not_found_message : string -> string.

Ltac script_step :=
  unfold mbind, M_bind, mret, M_ret, bind, ret, emit, raise, st_stop,
    get_session, put_session; simpl.

(** The frame that [load_data] returns for a catalog [raw]. *)
Lemma load_body_ok (inp : Inputs) (raw : DataFrame) (s : Session)
    (score genres synopsis_clean : list cell) :
  csv_file inp = inr raw ->
  df_cols raw !! "score" = Some score ->
  df_cols raw !! "genres" = Some genres ->
  df_cols raw !! "synopsis_clean" = Some synopsis_clean ->
  load_body inp s =
    ([], s,
     Ret {| df_len := df_len raw;
            df_cols :=
              <["synopsis_clean" := fillna (Str "") synopsis_clean]>
              (<["image_url" := image_or_placeholder <$>
                   default (replicate (df_len raw) (Str placeholder))
                     (df_cols raw !! "image_url")]>
              (<["genres" := fillna (Str "Unknown") genres]>
              (<["score" := fillna (Num f_zero) (to_numeric <$> score)]>
                 (df_cols raw)))) |}).
Proof.
  intros Hcsv Hscore Hgenres Hsyn.
  unfold load_body, read_csv, getitem. rewrite Hcsv. script_step.
  rewrite Hscore. simpl.
  rewrite lookup_insert_ne by done. rewrite Hgenres. simpl.
  rewrite !lookup_insert_ne by done.
  destruct (df_cols raw !! "image_url") as [img|] eqn:Himg; simpl.
  - rewrite !lookup_insert_ne by done. rewrite Himg. simpl.
    rewrite !lookup_insert_ne by done. rewrite Hsyn. done.
  - rewrite lookup_insert_eq. simpl.
    rewrite !lookup_insert_ne by done. rewrite Hsyn. simpl.
    unfold setitem. simpl. by rewrite insert_insert_eq.
Qed.

Lemma fillna_to_numeric (col : list cell) :
  fillna (Num f_zero) (to_numeric <$> col) = score_or_zero <$> col.
Proof.
  unfold fillna. rewrite <- list_fmap_compose. apply list_fmap_ext.
  intros _ [|x|t] _; simpl; [done | done |]. by destruct (to_numeric_str t).
Qed.

Lemma fillna_text (d : string) (col : list cell) :
  fillna (Str d) col = text_or d <$> col.
Proof. unfold fillna. apply list_fmap_ext. by intros _ [|x|t] _. Qed.

Lemma score_or_zero_notna (c : cell) : isna (score_or_zero c) = false.
Proof. destruct c as [|x|t]; simpl; [done | done |]. by destruct (to_numeric_str t). Qed.

Lemma text_or_notna (d : string) (c : cell) : isna (text_or d c) = false.
Proof. by destruct c. Qed.

Lemma load_data_returns (inp : Inputs) (s : Session) (df : DataFrame) :
  load_body inp s = ([], s, Ret df) -> load_data inp s = ([], s, Ret df).
Proof. intros H. unfold load_data, try_except. by rewrite H. Qed.

(** C3: every cell of the score, genres and synopsis_clean columns that is
    missing (or, for the score, not a number) is replaced by its default, 0,
    [Unknown] and the empty text, and kept otherwise; the load shows nothing,
    raises nothing, and the three columns it returns have no missing value. *)
Theorem load_data_fills_defaults (inp : Inputs) (raw : DataFrame) (s : Session)
    (score genres synopsis_clean : list cell) :
  csv_file inp = inr raw ->
  df_cols raw !! "score" = Some score ->
  df_cols raw !! "genres" = Some genres ->
  df_cols raw !! "synopsis_clean" = Some synopsis_clean ->
  exists df,
    load_data inp s = ([], s, Ret df) /\
    df_len df = df_len raw /\
    df_cols df !! "score" = Some (score_or_zero <$> score) /\
    df_cols df !! "genres" = Some (text_or "Unknown" <$> genres) /\
    df_cols df !! "synopsis_clean" = Some (text_or "" <$> synopsis_clean) /\
    forall name col,
      name ∈ ["score"; "genres"; "synopsis_clean"] ->
      df_cols df !! name = Some col ->
      Forall (fun c => isna c = false) col.
Proof.
  intros Hcsv Hscore Hgenres Hsyn.
  eexists. split.
  { apply load_data_returns. by eapply load_body_ok. }
  simpl. rewrite lookup_insert_eq. rewrite !lookup_insert_ne by done.
  rewrite !lookup_insert_eq. rewrite !lookup_insert_ne by done.
  rewrite lookup_insert_eq.
  rewrite fillna_to_numeric, !fillna_text.
  repeat split; try done.
  intros name col Hname Hcol.
  assert (col = score_or_zero <$> score \/ col = text_or "Unknown" <$> genres
          \/ col = text_or "" <$> synopsis_clean) as Hcases.
  { rewrite !elem_of_cons in Hname. destruct Hname as [->|[->|[->|Hname]]].
    - rewrite !lookup_insert_ne in Hcol by done.
      rewrite lookup_insert_eq in Hcol. left. congruence.
    - rewrite !lookup_insert_ne in Hcol by done.
      rewrite lookup_insert_eq in Hcol. right; left. congruence.
    - rewrite lookup_insert_eq in Hcol. right; right. congruence.
    - by apply elem_of_nil in Hname. }
  destruct Hcases as [->|[->| ->]]; apply Forall_fmap, Forall_forall; intros c _;
    simpl; auto using score_or_zero_notna, text_or_notna.
Qed.

(** An unreadable file and a catalog without a score column, two of the ways
    in which the body of the loader raises. *)
Lemma load_body_unreadable (inp : Inputs) (s : Session) (e : exn) :
  csv_file inp = inl e -> load_body inp s = ([], s, Raise e).
Proof. intros H. unfold load_body, read_csv. rewrite H. done. Qed.

Lemma load_body_no_score (inp : Inputs) (raw : DataFrame) (s : Session) :
  csv_file inp = inr raw -> df_cols raw !! "score" = None ->
  load_body inp s = ([], s, Raise (KeyError "score")).
Proof.
  intros H Hs. unfold load_body, read_csv, getitem. rewrite H.
  script_step. rewrite Hs. done.
Qed.

(** C8: when anything raises while the catalog is loaded, [load_data] shows
    the error and stops the run: the page ends with that message, and neither
    the model is built nor a view drawn. *)
Theorem load_failure_is_fatal (inp : Inputs) (s s' : Session)
    (evs : list event) (e : exn) :
  load_body inp s = (evs, s', Raise e) ->
  load_data inp s =
    (evs ++ [ErrorMsg ("Gagal memuat dataset: " ++ exn_str e)], s', Stop) /\
  forall css name,
    css_file inp = inr css -> logged_in s = true -> username s = Some name ->
    main build_model not_found_message inp s =
      ([PageConfig; Style css; SidebarUser name; LogoutControl; PageTitle]
         ++ evs ++ [ErrorMsg ("Gagal memuat dataset: " ++ exn_str e)],
       s', Stop).
Proof.
  intros Hbody.
  assert (load_data inp s =
    (evs ++ [ErrorMsg ("Gagal memuat dataset: " ++ exn_str e)], s', Stop)) as Hload.
  { unfold load_data, try_except. rewrite Hbody. done. }
  split; [done |].
  intros css name Hcss Hlog Huser.
  unfold main, local_css. rewrite Hcss. script_step.
  rewrite Hlog, Huser. simpl. rewrite Hload. done.
Qed.

Lemma placeholder_kept : image_or_placeholder (Str placeholder) = Str placeholder.
Proof. reflexivity. Qed.

(** C4, as the loader has it: an image reference is kept when its text
    starts with [http] and replaced by the placeholder otherwise; a catalog
    without the column gets the placeholder in every row. *)
Theorem image_reference_fallback (inp : Inputs) (raw : DataFrame) (s : Session)
    (score genres synopsis_clean : list cell) :
  csv_file inp = inr raw ->
  df_cols raw !! "score" = Some score ->
  df_cols raw !! "genres" = Some genres ->
  df_cols raw !! "synopsis_clean" = Some synopsis_clean ->
  exists df images,
    load_data inp s = ([], s, Ret df) /\
    df_cols df !! "image_url" = Some images /\
    match df_cols raw !! "image_url" with
    | None => images = replicate (df_len raw) (Str placeholder)
    | Some raw_images =>
        length images = length raw_images /\
        forall i x, raw_images !! i = Some x ->
          images !! i = Some (if startswith_http x then x else Str placeholder)
    end.
Proof.
  intros Hcsv Hscore Hgenres Hsyn.
  eexists _, _. split.
  { apply load_data_returns. by eapply load_body_ok. }
  simpl. rewrite lookup_insert_ne by done. rewrite lookup_insert_eq.
  split; [done |].
  destruct (df_cols raw !! "image_url") as [raw_images|]; simpl.
  - split; [by rewrite length_fmap |].
    intros i x Hx. rewrite list_lookup_fmap, Hx. done.
  - rewrite fmap_replicate. by rewrite placeholder_kept.
Qed.

(** *** Looking a title up *)

Lemma iloc0_filter_found (mask : list bool) (df : DataFrame) (i : nat) (s : Session) :
  first_true mask = Some i ->
  iloc0 (df_filter mask df) s = ([], s, Ret (row_at df i)).
Proof.
  intros Hi. unfold iloc0. simpl.
  destruct (count_true mask) eqn:Hc.
  - apply count_true_0 in Hc. congruence.
  - by rewrite (row_at_filter _ _ _ Hi).
Qed.

Lemma iloc0_filter_missing (mask : list bool) (df : DataFrame) (s : Session) :
  first_true mask = None ->
  iloc0 (df_filter mask df) s =
    ([], s, Raise (IndexError "single positional indexer is out-of-bounds")).
Proof.
  intros Hi. unfold iloc0. simpl.
  apply count_true_0 in Hi. by rewrite Hi.
Qed.

Lemma first_true_le (mask : list bool) (i : nat) :
  mask !! i = Some true -> exists k, first_true mask = Some k /\ (k <= i)%nat.
Proof.
  intros Hi. destruct (first_true mask) as [k|] eqn:Hk.
  - exists k. split; [done |]. apply first_true_Some in Hk as [_ Hlt].
    destruct (decide (k <= i)%nat) as [|Hn]; [done |].
    specialize (Hlt i ltac:(lia)). congruence.
  - by destruct (proj1 (first_true_None mask) Hk i).
Qed.

Lemma cell_eq_str_true (c : cell) (t : string) :
  cell_eq_str c t = true <-> c = Str t.
Proof.
  destruct c as [|x|u]; simpl; [done | done |].
  rewrite bool_decide_eq_true. split; congruence.
Qed.

Lemma exact_mask_lookup (title : string) (titles : list cell) (j : nat) :
  exact_mask title titles !! j = Some true <-> titles !! j = Some (Str title).
Proof.
  unfold exact_mask. rewrite list_lookup_fmap.
  destruct (titles !! j) as [c|]; simpl; [| done].
  split.
  - intros [= H]. apply cell_eq_str_true in H. congruence.
  - intros [= ->]. f_equal. by apply cell_eq_str_true.
Qed.

Lemma lower_mask_lookup (query : string) (titles : list cell) (j : nat) :
  lower_mask query titles !! j = Some true <->
  exists t, titles !! j = Some (Str t) /\ str_lower t = str_lower query.
Proof.
  unfold lower_mask. rewrite list_lookup_fmap.
  destruct (titles !! j) as [c|]; simpl.
  - split.
    + intros [= H]. apply cell_eq_str_true in H.
      destruct c as [|x|t]; simpl in H; try discriminate.
      exists t. split; congruence.
    + intros (t & [= ->] & Ht). f_equal. apply cell_eq_str_true. simpl. congruence.
  - split; [done | by intros (t & ? & _)].
Qed.

(** C2, as the script has it: the lookup compares titles in lower case and
    takes the first row that matches.  A query that differs from the title of
    row [i] only in case resolves to a row [k <= i] whose title has the same
    lower-case form, and to row [i] itself when no earlier title has it; the
    recommender's resolution and the page's lookup of the selected item
    agree. *)
Theorem title_resolution_first_match (df : DataFrame) (titles : list cell)
    (query t : string) (i : nat) (s : Session) :
  df_cols df !! "title" = Some titles ->
  titles !! i = Some (Str t) ->
  str_lower t = str_lower query ->
  exists k t',
    (k <= i)%nat /\
    titles !! k = Some (Str t') /\
    str_lower t' = str_lower query /\
    resolve_title query df = Some k /\
    selected_lookup df query s = ([], s, Ret (row_at df k)) /\
    ((forall j u, (j < i)%nat -> titles !! j = Some (Str u) ->
        str_lower u <> str_lower query) -> k = i).
Proof.
  intros Hcol Hi Ht.
  assert (lower_mask query titles !! i = Some true) as Hmask.
  { apply lower_mask_lookup. eauto. }
  destruct (first_true_le _ _ Hmask) as (k & Hk & Hle).
  pose proof (proj1 (first_true_Some _ _) Hk) as [Hk1 Hk2].
  apply lower_mask_lookup in Hk1 as (t' & Hk1 & Ht').
  exists k, t'. repeat split; try done.
  - unfold resolve_title. by rewrite Hcol.
  - unfold selected_lookup, getitem. rewrite Hcol. script_step.
    by rewrite (iloc0_filter_found _ _ _ _ Hk).
  - intros Hfirst. destruct (decide (k = i)) as [|Hne]; [done |].
    destruct (Hfirst k t'); [lia | done | done].
Qed.

(** C10: a bookmark is looked up by exact equality of titles and the first
    matching row is taken; when no title of the catalog equals the bookmark,
    also when one differs from it in case only, the lookup raises
    [IndexError], and so does the Bookmark view on reaching it. *)
Theorem bookmark_lookup_exact (inp : Inputs) (df : DataFrame)
    (titles : list cell) (title : string) (s : Session) :
  df_cols df !! "title" = Some titles ->
  (forall i,
     titles !! i = Some (Str title) ->
     (forall j, (j < i)%nat -> titles !! j <> Some (Str title)) ->
     bookmark_lookup df title s = ([], s, Ret (row_at df i))) /\
  (Str title ∉ titles ->
     bookmark_lookup df title s =
       ([], s, Raise (IndexError "single positional indexer is out-of-bounds")) /\
     forall rest, stored_bookmarks inp = title :: rest ->
       (bookmark_view inp df s).2 =
         Raise (IndexError "single positional indexer is out-of-bounds")).
Proof.
  intros Hcol. split.
  - intros i Hi Hfirst.
    assert (first_true (exact_mask title titles) = Some i) as Hk.
    { destruct (first_true_le (exact_mask title titles) i) as (k & Hk & Hle).
      { by apply exact_mask_lookup. }
      pose proof (proj1 (first_true_Some _ _) Hk) as [Hk1 _].
      apply exact_mask_lookup in Hk1.
      destruct (decide (k = i)) as [->|Hne]; [done |].
      destruct (Hfirst k); [lia | done]. }
    unfold bookmark_lookup, getitem. rewrite Hcol. script_step.
    by rewrite (iloc0_filter_found _ _ _ _ Hk).
  - intros Hnot.
    assert (first_true (exact_mask title titles) = None) as Hk.
    { apply first_true_None. intros j Hj. apply exact_mask_lookup in Hj.
      apply Hnot. apply list_elem_of_lookup. eauto. }
    assert (bookmark_lookup df title s =
      ([], s, Raise (IndexError "single positional indexer is out-of-bounds"))) as Hlook.
    { unfold bookmark_lookup, getitem. rewrite Hcol. script_step.
      by rewrite (iloc0_filter_missing _ _ _ Hk). }
    split; [done |].
    intros rest Hrest. unfold bookmark_view. rewrite Hrest.
    assert (forall s0, bookmark_lookup df title s0 =
      ([], s0, Raise (IndexError "single positional indexer is out-of-bounds"))) as Hany.
    { intros s0. unfold bookmark_lookup, getitem. rewrite Hcol. script_step.
      by rewrite (iloc0_filter_missing _ _ _ Hk). }
    unfold bookmark_card. script_step.
    destruct (delete_clicked inp); [destruct (selected_to_delete inp) |];
      script_step; by rewrite Hany.
Qed.

(** *** What a run shows *)

Lemma bind_events {A B} (P : event -> Prop) (m : M A) (f : A -> M B) (s : Session) :
  Forall P (m s).1.1 ->
  (forall a s', Forall P (f a s').1.1) ->
  Forall P ((m ≫= f) s).1.1.
Proof.
  intros Hm Hf. unfold mbind, M_bind, bind.
  destruct (m s) as [[ev1 s1] [a|e|]]; simpl in *; try done.
  specialize (Hf a s1). destruct (f a s1) as [[ev2 s2] o]. simpl in *.
  by apply Forall_app.
Qed.

Lemma fold_each_events {A S} (P : event -> Prop) (l : list A) (body : S -> A -> M S) :
  (forall acc x s, Forall P (body acc x s).1.1) ->
  forall acc s, Forall P (fold_each l acc body s).1.1.
Proof.
  intros Hbody. induction l as [|x l IH]; intros acc s; simpl.
  - constructor.
  - apply bind_events; [apply Hbody | intros acc' s'; apply IH].
Qed.

Lemma getitem_events (P : event -> Prop) (df : DataFrame) (name : string) (s : Session) :
  Forall P (getitem df name s).1.1.
Proof. unfold getitem. destruct (df_cols df !! name); constructor. Qed.

Lemma getfield_events (P : event -> Prop) (r : Row) (name : string) (s : Session) :
  Forall P (getfield r name s).1.1.
Proof. unfold getfield. destruct (r !! name); constructor. Qed.

Lemma iloc0_events (P : event -> Prop) (df : DataFrame) (s : Session) :
  Forall P (iloc0 df s).1.1.
Proof. unfold iloc0. destruct (df_len df); constructor. Qed.

Lemma emit_events (P : event -> Prop) (e : event) (s : Session) :
  P e -> Forall P (emit e s).1.1.
Proof. intros He. simpl. by constructor. Qed.

Lemma load_body_events (inp : Inputs) (s : Session) : (load_body inp s).1.1 = [].
Proof.
  unfold load_body, read_csv, getitem.
  destruct (csv_file inp) as [e|df]; script_step; [done |].
  destruct (df_cols df !! "score"); simpl; [| done].
  rewrite lookup_insert_ne by done.
  destruct (df_cols df !! "genres"); simpl; [| done].
  rewrite !lookup_insert_ne by done.
  destruct (df_cols df !! "image_url") eqn:Himg; simpl.
  - rewrite !lookup_insert_ne by done. rewrite Himg. simpl.
    rewrite !lookup_insert_ne by done.
    destruct (df_cols df !! "synopsis_clean"); done.
  - rewrite lookup_insert_eq. simpl. rewrite !lookup_insert_ne by done.
    destruct (df_cols df !! "synopsis_clean"); done.
Qed.

Lemma load_data_events (v : cell) (inp : Inputs) (s : Session) :
  Forall (shows_similarity v) (load_data inp s).1.1.
Proof.
  pose proof (load_body_events inp s) as Hev.
  unfold load_data, try_except.
  destruct (load_body inp s) as [[ev1 s1] [a|e|]]; simpl in *; subst;
    repeat constructor.
Qed.

Lemma display_anime_card_events (inp : Inputs) (registered : list string)
    (title genres score similarity synopsis image_url : cell) (s : Session) :
  Forall (shows_similarity similarity)
    (display_anime_card inp registered title genres score similarity synopsis image_url s).1.1.
Proof.
  unfold display_anime_card, st_image.
  destruct (image_error (as_text image_url)); [constructor |].
  destruct score, similarity; script_step; try (by repeat constructor);
    destruct (logged_in s); simpl; try (by repeat constructor);
    destruct (bool_decide (bookmark_key title ∈ registered)); simpl;
    try (by repeat constructor);
    destruct (bookmark_clicked inp title); simpl; by repeat constructor.
Qed.

Lemma bookmark_card_events (inp : Inputs) (df : DataFrame)
    (registered : list string) (title : string) (s : Session) :
  Forall (shows_similarity (Num f_one)) (bookmark_card inp df registered title s).1.1.
Proof.
  unfold bookmark_card, bookmark_lookup.
  repeat (apply bind_events;
          [first [apply getitem_events | apply getfield_events | apply iloc0_events
                 | apply bind_events; [apply getitem_events | intros; apply iloc0_events]]
          | intros ? ?]).
  apply display_anime_card_events.
Qed.

Lemma bookmark_view_events (inp : Inputs) (df : DataFrame) (s : Session) :
  Forall (shows_similarity (Num f_one)) (bookmark_view inp df s).1.1.
Proof.
  unfold bookmark_view.
  apply bind_events; [by apply emit_events |]. intros _ s1.
  destruct (stored_bookmarks inp) as [|b bs]; [by apply emit_events |].
  apply bind_events.
  - destruct (delete_clicked inp); [destruct (selected_to_delete inp) |];
      simpl; repeat constructor.
  - intros _ s2. apply bind_events; [| intros; constructor].
    apply fold_each_events. intros acc x s3. apply bookmark_card_events.
Qed.

(** C9: in the Bookmark view every card shows the similarity 1.0, whatever
    the catalog, the matrix and the bookmarks are. *)
Theorem bookmark_cards_show_one (inp : Inputs) (s : Session)
    (title genres score similarity synopsis image_url : cell) :
  menu_choice inp = Bookmark ->
  Card title genres score similarity synopsis image_url
    ∈ (main build_model not_found_message inp s).1.1 ->
  similarity = Num f_one.
Proof.
  intros Hmenu Hin.
  assert (Forall (shows_similarity (Num f_one))
            (main build_model not_found_message inp s).1.1) as Hall.
  { unfold main.
    apply bind_events; [by apply emit_events |]. intros _ s1.
    apply bind_events.
    { unfold local_css. destruct (css_file inp); simpl; repeat constructor. }
    intros _ s2.
    apply bind_events; [constructor |]. intros s3 s4.
    destruct (logged_in s3); simpl; [| by repeat constructor].
    destruct (username s3); [| constructor].
    repeat (apply bind_events; [by apply emit_events | intros _ ?]).
    apply bind_events; [apply load_data_events |]. intros df s5.
    rewrite Hmenu. apply bookmark_view_events. }
  rewrite Forall_forall in Hall. apply (Hall _ Hin).
Qed.

Lemma resolve_title_None (query : string) (df : DataFrame) :
  resolve_title query df = None <->
  forall t, Str t ∈ title_column df -> str_lower t <> str_lower query.
Proof.
  unfold resolve_title, title_column. rewrite first_true_None. split.
  - intros Hnone t Ht Heq. apply list_elem_of_lookup in Ht as [j Hj].
    apply (Hnone j). apply lower_mask_lookup. eauto.
  - intros Hnone j Hj. apply lower_mask_lookup in Hj as (t & Hj & Ht).
    apply (Hnone t); [| done]. apply list_elem_of_lookup. eauto.
Qed.

Lemma resolve_title_Some (query : string) (df : DataFrame) :
  is_Some (resolve_title query df) <->
  exists t, Str t ∈ title_column df /\ str_lower t = str_lower query.
Proof.
  split.
  - intros [idx Hidx]. unfold resolve_title in Hidx.
    apply first_true_Some in Hidx as [Hidx _].
    apply lower_mask_lookup in Hidx as (t & Hj & Ht).
    exists t. split; [| done]. apply list_elem_of_lookup. eauto.
  - intros (t & Ht & Heq).
    destruct (resolve_title query df) as [idx|] eqn:Hres; [by eexists |].
    by destruct (proj1 (resolve_title_None query df) Hres t Ht).
Qed.

(** A step that shows nothing and leaves the session hands its result on. *)
Lemma bind_quiet {A B} (m : M A) (f : A -> M B) (s s1 : Session) (a : A) :
  m s = ([], s1, Ret a) -> (m ≫= f) s = f a s1.
Proof.
  intros Hm. unfold mbind, M_bind, bind. rewrite Hm.
  by destruct (f a s1) as [[evs s2] o].
Qed.

Lemma elem_of_insert_sorted (x t : string) (l : list string) :
  x ∈ insert_sorted t l <-> x = t \/ x ∈ l.
Proof.
  induction l as [|u l IH]; simpl.
  - rewrite list_elem_of_singleton, elem_of_nil.
    split; [by left | by intros [?|[]]].
  - destruct (String.leb t u).
    + by rewrite elem_of_cons.
    + rewrite !elem_of_cons, IH. split.
      * intros [?|[?|?]]; [right; by left | by left | right; by right].
      * intros [?|[?|?]]; [right; by left | by left | right; by right].
Qed.

Lemma elem_of_sorted (x : string) (l : list string) : x ∈ sorted l <-> x ∈ l.
Proof.
  unfold sorted. induction l as [|t l IH]; simpl; [done |].
  by rewrite elem_of_insert_sorted, elem_of_cons, IH.
Qed.

(** A text that the selectbox returns is the title of an item. *)
Lemma select_title_stored (inp : Inputs) (df : DataFrame) (s s' : Session)
    (evs : list event) (t : string) :
  select_title inp df s = (evs, s', Ret (Text t)) -> Str t ∈ title_column df.
Proof.
  unfold select_title, getitem, title_column.
  destruct (df_cols df !! "title") as [titles|]; [| discriminate].
  rewrite (bind_quiet (mret titles) _ s s titles eq_refl).
  unfold title_options. simpl default.
  assert (forall u, u ∈ omap as_text titles -> Str u ∈ titles) as Htexts.
  { intros u Hu. apply list_elem_of_omap in Hu as (c & Hc & Hu).
    destruct c; try discriminate. by injection Hu as ->. }
  destruct (omap as_text titles) as [|t0 texts] eqn:Homap.
  { destruct titles; script_step; discriminate. }
  assert (forall u, u ∈ sorted (remove_dups (t0 :: texts)) -> Str u ∈ titles) as Hopt.
  { intros u Hu. apply Htexts. by apply elem_of_remove_dups, elem_of_sorted. }
  remember (sorted (remove_dups (t0 :: texts))) as options eqn:Hoptions.
  clear Hoptions.
  destruct (forallb _ titles); script_step; [| discriminate].
  unfold st_selectbox.
  destruct options as [|first rest]; [discriminate |].
  destruct (bool_decide (selected_anime inp ∈ first :: rest)) eqn:Hheld;
    intros Hsel; injection Hsel as _ _ <-; apply Hopt.
  - by apply (bool_decide_eq_true_1 _).
  - by left.
Qed.

(** C1: [recommend_anime] returns the text of the not-found signal exactly
    for the titles that no item of the catalog matches in lower case, and a
    frame, never a text, for the others; the page shows a text that it gets
    as a warning and nothing else, and the run goes on; and the title that
    the page asks for comes out of a selectbox over the titles of the
    catalog, so the call that the page makes returns a frame. *)
Theorem unknown_title_is_signalled (inp : Inputs) (df : DataFrame)
    (cosine_sim : list (list float)) (query : string) (top_n : Z) (s : Session) :
  ((forall t, Str t ∈ title_column df -> str_lower t <> str_lower query) <->
   recommend_anime not_found_message query cosine_sim df top_n
     = inl (not_found_message query)) /\
  ((exists t, Str t ∈ title_column df /\ str_lower t = str_lower query) <->
   exists recs,
     recommend_anime not_found_message query cosine_sim df top_n = inr recs) /\
  (forall msg,
     recommendations_page inp df query (inl msg) s = ([WarningMsg msg], s, Ret tt)) /\
  (forall evs s' t,
     select_title inp df s = (evs, s', Ret (Text t)) ->
     exists recs, recommend_anime not_found_message t cosine_sim df top_n = inr recs).
Proof.
  split; [| split; [| split]].
  - rewrite <- resolve_title_None. unfold recommend_anime.
    destruct (resolve_title query df); split; done.
  - rewrite <- resolve_title_Some. unfold recommend_anime.
    destruct (resolve_title query df); split.
    + intros _. by eexists.
    + intros _. by eexists.
    + by intros [? ?].
    + by intros [? ?].
  - done.
  - intros evs s' t Hsel.
    destruct (resolve_title t df) as [idx|] eqn:Hres.
    + unfold recommend_anime. rewrite Hres. by eexists.
    + destruct (proj1 (resolve_title_None t df) Hres t); [| done].
      by apply (select_title_stored inp df s s' evs).
Qed.

(** *** The number of recommendations *)

Lemma length_insert_desc (x : nat * float) (l : list (nat * float)) :
  length (insert_desc x l) = S (length l).
Proof.
  induction l as [|y l IH]; simpl; [done |].
  destruct (f_leb y.2 x.2); simpl; [done | by rewrite IH].
Qed.

Lemma length_rank_desc (l : list (nat * float)) : length (rank_desc l) = length l.
Proof.
  unfold rank_desc. induction l as [|x l IH]; simpl; [done |].
  by rewrite length_insert_desc, IH.
Qed.

Lemma elem_of_insert_desc (p x : nat * float) (l : list (nat * float)) :
  p ∈ insert_desc x l -> p = x \/ p ∈ l.
Proof.
  induction l as [|y l IH]; simpl.
  - rewrite list_elem_of_singleton. by left.
  - destruct (f_leb y.2 x.2).
    + rewrite elem_of_cons. tauto.
    + rewrite !elem_of_cons. intros [->|H]; [by right; left |].
      destruct (IH H); [by left | by right; right].
Qed.

Lemma elem_of_rank_desc (p : nat * float) (l : list (nat * float)) :
  p ∈ rank_desc l -> p ∈ l.
Proof.
  unfold rank_desc. induction l as [|x l IH]; simpl; [done |].
  intros H. apply elem_of_insert_desc in H as [->|H].
  - by left.
  - right. by apply IH.
Qed.

Lemma others_length (idx k : nat) (row : list float) :
  (length (filter (fun p : nat * float => p.1 ≠ idx)
             (imap (fun j x => ((k + j)%nat, x)) row))
   + (if bool_decide (k <= idx < k + length row)%nat then 1 else 0))%nat
  = length row.
Proof.
  revert k. induction row as [|x row IH]; intros k.
  - simpl. rewrite bool_decide_eq_false_2 by lia. done.
  - rewrite imap_cons.
    rewrite (imap_ext _ (fun j x => ((S k + j)%nat, x))).
    2:{ intros i y _. simpl. f_equal. lia. }
    specialize (IH (S k)).
    change (length (x :: row)) with (S (length row)).
    destruct (decide (k = idx)) as [->|Hne].
    + rewrite filter_cons_False by (simpl; intros H; apply H; lia).
      rewrite bool_decide_eq_false_2 in IH by lia.
      rewrite bool_decide_eq_true_2 by lia. lia.
    + rewrite filter_cons_True by (simpl; lia).
      change (length (?a :: ?l)) with (S (length l)).
      destruct (bool_decide (S k <= idx < S k + length row)%nat) eqn:Hb.
      * apply bool_decide_eq_true in Hb. rewrite bool_decide_eq_true_2 by lia. lia.
      * apply bool_decide_eq_false in Hb. rewrite bool_decide_eq_false_2 by lia. lia.
Qed.

Lemma length_omap_lookup (col : list cell) (idxs : list nat) :
  Forall (fun i => (i < length col)%nat) idxs ->
  length (omap (fun i => col !! i) idxs) = length idxs.
Proof.
  induction 1 as [|i idxs Hi _ IH]; simpl; [done |].
  destruct (lookup_lt_is_Some_2 col i Hi) as [c Hc].
  rewrite Hc. simpl. f_equal. exact IH.
Qed.

Lemma others_in_range (p : nat * float) (idx : nat) (row : list float) :
  p ∈ filter (fun p : nat * float => p.1 ≠ idx) (imap pair row) ->
  (p.1 < length row)%nat.
Proof.
  rewrite list_elem_of_filter. intros [_ Hp].
  apply elem_of_lookup_imap in Hp as (i & x & -> & Hi). simpl.
  by eapply lookup_lt_Some.
Qed.

Lemma resolve_title_lt (query : string) (df : DataFrame) (idx : nat) :
  df_wf df -> resolve_title query df = Some idx -> (idx < df_len df)%nat.
Proof.
  intros Hwf Hres. unfold resolve_title in Hres.
  apply first_true_Some in Hres as [Hres _].
  apply lookup_lt_Some in Hres. unfold lower_mask in Hres.
  rewrite length_fmap in Hres.
  destruct (df_cols df !! "title") as [titles|] eqn:Ht; simpl in Hres; [| lia].
  by rewrite <- (Hwf _ _ Ht).
Qed.

Lemma insert_desc_Permutation (x : nat * float) (l : list (nat * float)) :
  insert_desc x l ≡ₚ x :: l.
Proof.
  induction l as [|y l IH]; simpl; [done |].
  destruct (f_leb y.2 x.2); [done |].
  rewrite IH. apply Permutation_swap.
Qed.

Lemma rank_desc_Permutation (l : list (nat * float)) : rank_desc l ≡ₚ l.
Proof.
  unfold rank_desc. induction l as [|x l IH]; simpl; [done |].
  by rewrite insert_desc_Permutation, IH.
Qed.

Section Ranking.
Hypothesis f_leb_total : forall x y : float, f_leb x y = true \/ f_leb y x = true.
Hypothesis f_leb_trans :
  forall x y z : float, f_leb x y = true -> f_leb y z = true -> f_leb x z = true.

Lemma insert_desc_sorted (x : nat * float) (l : list (nat * float)) :
  StronglySorted (fun a b => f_leb b.2 a.2 = true) l ->
  StronglySorted (fun a b => f_leb b.2 a.2 = true) (insert_desc x l).
Proof.
  induction l as [|y l IH]; simpl; intros Hl.
  - repeat constructor.
  - apply StronglySorted_cons in Hl as [Hy Hl].
    destruct (f_leb y.2 x.2) eqn:Hyx.
    + apply StronglySorted_cons. split.
      * constructor; [done |]. eapply Forall_impl; [exact Hy |].
        intros z Hz. simpl in *. by eapply f_leb_trans.
      * by apply StronglySorted_cons.
    + apply StronglySorted_cons. split; [| by apply IH].
      rewrite insert_desc_Permutation. constructor; [| done].
      destruct (f_leb_total x.2 y.2); [done | congruence].
Qed.

Lemma rank_desc_sorted (l : list (nat * float)) :
  StronglySorted (fun a b => f_leb b.2 a.2 = true) (rank_desc l).
Proof.
  unfold rank_desc. induction l as [|x l IH]; simpl; [constructor |].
  by apply insert_desc_sorted.
Qed.

End Ranking.

Lemma NoDup_filter_fst (P : nat * float -> Prop) {Hdec : forall q, Decision (P q)}
    (l : list (nat * float)) :
  NoDup l.*1 -> NoDup (filter P l).*1.
Proof.
  induction l as [|x l IH]; simpl; [done |].
  rewrite NoDup_cons. intros [Hx Hl].
  destruct (decide (P x)).
  - rewrite filter_cons_True by done. simpl. apply NoDup_cons. split; [| by apply IH].
    intros Hin. apply Hx. apply list_elem_of_fmap in Hin as (y & -> & Hy).
    apply list_elem_of_filter in Hy as [_ Hy]. apply list_elem_of_fmap. eauto.
  - rewrite filter_cons_False by done. by apply IH.
Qed.

Lemma others_NoDup (idx : nat) (row : list float) :
  NoDup (filter (fun p : nat * float => p.1 ≠ idx) (imap pair row)).*1.
Proof.
  apply NoDup_filter_fst.
  rewrite fmap_imap.
  rewrite (imap_ext _ (fun j _ => j)) by done.
  rewrite (imap_seq_0 row (fun j : nat => j)). rewrite list_fmap_id. apply NoDup_seq.
Qed.

Lemma others_elem_of (idx j : nat) (x : float) (row : list float) :
  (j, x) ∈ filter (fun p : nat * float => p.1 ≠ idx) (imap pair row) <->
  j ≠ idx /\ row !! j = Some x.
Proof.
  rewrite list_elem_of_filter, elem_of_lookup_imap. simpl. split.
  - intros [Hne (i & y & [= -> ->] & Hi)]. done.
  - intros [Hne Hj]. split; [done |]. by exists j, x.
Qed.

Lemma omap_lookup_in_range (col : list cell) (idxs : list nat) (k : nat) :
  Forall (fun i => (i < length col)%nat) idxs ->
  omap (fun i => col !! i) idxs !! k = idxs !! k ≫= (fun i => col !! i).
Proof.
  intros Hall. revert k. induction Hall as [|i idxs Hi _ IH]; intros k; [done |].
  destruct (lookup_lt_is_Some_2 col i Hi) as [c Hc]. simpl. rewrite Hc. simpl.
  destruct k as [|k]; simpl; [done | apply IH].
Qed.


Lemma request_step_run (inp : Inputs) (s : Session) :
  request_step inp s =
    ([],
     if recommend_clicked inp
     then {| logged_in := logged_in s; username := username s;
             show_recommendations := true |}
     else s,
     Ret tt).
Proof. unfold request_step. by destruct (recommend_clicked inp). Qed.

(** The recommendation menu once the selectbox has given its selection. *)
Lemma rekomendasi_view_selected (inp : Inputs) (df : DataFrame)
    (cosine_sim : list (list float)) (s : Session) (selected : selection) :
  select_title inp df s = ([], s, Ret selected) ->
  rekomendasi_view not_found_message inp df cosine_sim s =
    (let s' := if recommend_clicked inp
               then {| logged_in := logged_in s; username := username s;
                       show_recommendations := true |}
               else s in
     if show_recommendations s' then
       match selected with
       | Text t =>
           recommendations_page inp df t
             (recommend_anime not_found_message t cosine_sim df
                (st_slider 1 10 5 (slider_pos inp))) s'
       | NoOption => ([], s', Raise (AttributeError "NoneType" "lower"))
       | NotText => ([], s', Raise (AttributeError "float" "lower"))
       end
     else ([], s', Ret tt)).
Proof.
  intros Hselect. unfold rekomendasi_view.
  rewrite (bind_quiet _ _ _ _ _ Hselect).
  rewrite (bind_quiet _ _ _ _ _ (request_step_run inp s)).
  set (s' := if recommend_clicked inp then _ else s).
  rewrite (bind_quiet get_session _ s' s' s' eq_refl).
  cbv zeta. destruct (show_recommendations s'); [| done].
  destruct selected as [|t|]; [done | | done].
  by rewrite (bind_quiet (query_of (Text t)) _ s' s' t eq_refl).
Qed.

Lemma st_slider_range (pos : option Z) : 1 <= st_slider 1 10 5 pos <= 10.
Proof.
  unfold st_slider. destruct pos as [p|]; [| lia].
  destruct ((1 <=? p) && (p <=? 10))%Z eqn:Hp; [| lia].
  apply andb_true_iff in Hp as [H1 H2]. lia.
Qed.

(** C5: for a title of the catalog and the matrix of that catalog, given an
    order on similarities that is total and transitive, there is a ranking of
    the other items, each once with its similarity, by descending similarity,
    such that for every [top_n >= 1] [recommend_anime] returns the first
    [min(top_n, catalog_size - 1)] entries of it, each with the fields of its
    item; the page calls it with the [top_n] of a slider that only yields 1 to
    10, and so shows at most 10 of them. *)
Theorem recommend_anime_count (df : DataFrame) (cosine_sim : list (list float))
    (query : string) (idx : nat) (row : list float) :
  df_wf df ->
  resolve_title query df = Some idx ->
  cosine_sim !! idx = Some row ->
  length row = df_len df ->
  (forall x y : float, f_leb x y = true \/ f_leb y x = true) ->
  (forall x y z : float, f_leb x y = true -> f_leb y z = true -> f_leb x z = true) ->
  exists ranked : list (nat * float),
    NoDup ranked.*1 /\
    (forall j x, (j, x) ∈ ranked <-> j ≠ idx /\ row !! j = Some x) /\
    length ranked = (df_len df - 1)%nat /\
    StronglySorted (fun a b => f_leb b.2 a.2 = true) ranked /\
    (forall top_n, 1 <= top_n ->
       exists recs,
         recommend_anime not_found_message query cosine_sim df top_n = inr recs /\
         df_len recs = Z.to_nat (Z.min top_n (Z.of_nat (df_len df) - 1)) /\
         (forall name col, df_cols recs !! name = Some col -> length col = df_len recs) /\
         (forall k, (k < df_len recs)%nat ->
            exists j x,
              ranked !! k = Some (j, x) /\
              row_at recs k = <["similarity" := Num x]> (row_at df j))) /\
    (forall inp s,
       select_title inp df s = ([], s, Ret (Text query)) ->
       recommend_clicked inp = true \/ show_recommendations s = true ->
       exists recs,
         1 <= st_slider 1 10 5 (slider_pos inp) <= 10 /\
         recommend_anime not_found_message query cosine_sim df
           (st_slider 1 10 5 (slider_pos inp)) = inr recs /\
         (df_len recs <= 10)%nat /\
         rekomendasi_view not_found_message inp df cosine_sim s =
           recommendations_page inp df query (inr recs)
             (if recommend_clicked inp
              then {| logged_in := logged_in s; username := username s;
                      show_recommendations := true |}
              else s)).
Proof.
  intros Hwf Hres Hrow Hlen Htotal Htrans.
  pose proof (resolve_title_lt _ _ _ Hwf Hres) as Hidx.
  set (others := filter (fun p : nat * float => p.1 ≠ idx) (imap pair row)).
  assert (length others = (df_len df - 1)%nat) as Hothers.
  { pose proof (others_length idx 0 row) as H.
    rewrite bool_decide_eq_true_2 in H by lia.
    change (imap (fun j x => ((0 + j)%nat, x)) row) with (imap pair row) in H.
    fold others in H. lia. }
  assert (forall top_n, 1 <= top_n ->
    exists recs,
      recommend_anime not_found_message query cosine_sim df top_n = inr recs /\
      df_len recs = Z.to_nat (Z.min top_n (Z.of_nat (df_len df) - 1)) /\
      (forall name col, df_cols recs !! name = Some col -> length col = df_len recs) /\
      (forall k, (k < df_len recs)%nat ->
         exists j x,
           rank_desc others !! k = Some (j, x) /\
           row_at recs k = <["similarity" := Num x]> (row_at df j))) as Hcall.
  { intros top_n Htop.
    unfold recommend_anime. rewrite Hres, Hrow. simpl default. fold others.
    set (top := take (Z.to_nat top_n) (rank_desc others)).
    assert (length top = Z.to_nat (Z.min top_n (Z.of_nat (df_len df) - 1))) as Htoplen.
    { unfold top. rewrite length_take, length_rank_desc, Hothers. lia. }
    assert (Forall (fun i => (i < df_len df)%nat) top.*1) as Hrange.
    { apply Forall_fmap, Forall_forall. intros p Hp. simpl.
      rewrite <- Hlen. apply (others_in_range p idx).
      apply elem_of_rank_desc. by apply (subseteq_take (Z.to_nat top_n)). }
    eexists. split; [done |]. simpl. rewrite length_fmap. split; [done |]. split.
    - intros name col Hcol.
      destruct (decide (name = "similarity")) as [->|Hne].
      + rewrite lookup_insert_eq in Hcol. injection Hcol as <-.
        by rewrite !length_fmap.
      + rewrite lookup_insert_ne in Hcol by done.
        rewrite lookup_fmap in Hcol.
        destruct (df_cols df !! name) as [c|] eqn:Hc; simpl in Hcol; [| done].
        injection Hcol as <-. rewrite length_omap_lookup; [by rewrite length_fmap |].
        by rewrite (Hwf _ _ Hc).
    - intros k Hk.
      destruct (lookup_lt_is_Some_2 top k) as [[j x] Hjx].
      { first [exact Hk | by rewrite length_fmap in Hk]. }
      exists j, x. split.
      { unfold top in Hjx. apply lookup_take_Some in Hjx. by destruct Hjx. }
      apply map_eq. intros name. rewrite row_at_lookup. simpl.
      destruct (decide (name = "similarity")) as [->|Hne].
      + rewrite !lookup_insert_eq. simpl.
        by rewrite !list_lookup_fmap, Hjx.
      + rewrite !lookup_insert_ne by done. rewrite row_at_lookup, lookup_fmap.
        destruct (df_cols df !! name) as [c|] eqn:Hc; simpl; [| done].
        rewrite omap_lookup_in_range by (by rewrite (Hwf _ _ Hc)).
        by rewrite list_lookup_fmap, Hjx. }
  exists (rank_desc others). split; [| split; [| split; [| split; [| split]]]].
  - rewrite rank_desc_Permutation. apply others_NoDup.
  - intros j x. rewrite rank_desc_Permutation. apply others_elem_of.
  - by rewrite length_rank_desc.
  - by apply rank_desc_sorted.
  - exact Hcall.
  - intros inp s Hselect Hshow.
    pose proof (st_slider_range (slider_pos inp)) as Hslider.
    destruct (Hcall _ (proj1 Hslider)) as (recs & Hrecs & Hrows & _).
    exists recs. split; [done |]. split; [done |]. split; [lia |].
    rewrite (rekomendasi_view_selected inp df cosine_sim s (Text query) Hselect).
    rewrite <- Hrecs. cbv zeta.
    destruct (recommend_clicked inp); [done |].
    destruct Hshow as [|Hshow]; [done |]. by rewrite Hshow.
Qed.

End AppFacts.

Example load_example :
  load_data (example_inputs (inr example_catalog) Rekomendasi "Naruto" []) example_session
  = ([], example_session, Ret loaded_catalog).
Proof. vm_compute. reflexivity. Qed.

(** ** Facts about the similarity matrix *)

Section SimilarityFacts.
Local Open Scope R_scope.

Lemma dot_comm (a b : list R) : dot a b = dot b a.
Proof.
  unfold dot. revert b. induction a as [|x a IH]; intros [|y b]; simpl; try done.
  rewrite IH. lra.
Qed.

Lemma dot_self_nonneg (a : list R) : 0 <= dot a a.
Proof.
  unfold dot. induction a as [|x a IH]; simpl; [lra |]. nra.
Qed.

Lemma dot_self_zero (a : list R) : dot a a = 0 <-> Forall (fun x => x = 0) a.
Proof.
  induction a as [|x a IH].
  - split; [constructor | done].
  - pose proof (dot_self_nonneg a) as Hpos.
    change (dot (x :: a) (x :: a)) with (x * x + dot a a).
    rewrite Forall_cons, <- IH. split.
    + intros H. split; nra.
    + intros [-> ->]. lra.
Qed.

Lemma norm_zero (a : list R) : norm a = 0 <-> Forall (fun x => x = 0) a.
Proof.
  unfold norm. rewrite <- dot_self_zero. split.
  - apply sqrt_eq_0, dot_self_nonneg.
  - intros ->. apply sqrt_0.
Qed.

Lemma is_zero_true (x : R) : is_zero x = true <-> x = 0.
Proof. unfold is_zero. destruct (Req_dec_T x 0); split; done. Qed.

Lemma is_zero_false (x : R) : is_zero x = false <-> x <> 0.
Proof. unfold is_zero. destruct (Req_dec_T x 0); split; done. Qed.

Lemma cosine_comm (a b : list R) : cosine a b = cosine b a.
Proof.
  unfold cosine. rewrite (orb_comm (is_zero (norm a))), (dot_comm a b).
  by rewrite (Rmult_comm (norm a)).
Qed.

Lemma entry_build (vectors : list (list R)) (i j : nat) (a b : list R) :
  vectors !! i = Some a -> vectors !! j = Some b ->
  entry (build_similarity_matrix vectors) i j = Some (cosine a b).
Proof.
  intros Ha Hb. unfold entry, build_similarity_matrix.
  rewrite list_lookup_fmap, Ha. simpl. by rewrite list_lookup_fmap, Hb.
Qed.

Lemma build_similarity_matrix_square (vectors : list (list R)) :
  length (build_similarity_matrix vectors) = length vectors /\
  Forall (fun row => length row = length vectors) (build_similarity_matrix vectors).
Proof.
  unfold build_similarity_matrix. split; [by rewrite length_fmap |].
  apply Forall_fmap, Forall_forall. intros a _. simpl. by rewrite length_fmap.
Qed.

(** With one vector per description, the matrix of [build_model_spec] has as
    many rows and columns as the catalog has descriptions. *)
Lemma build_model_spec_square (vectorize : list (@cell R_float) -> list (list R))
    (df : @DataFrame R_float) (descriptions : list (@cell R_float)) :
  df_cols df !! "synopsis_clean" = Some descriptions ->
  length (vectorize descriptions) = length descriptions ->
  length (build_model_spec vectorize df) = length descriptions /\
  Forall (fun row => length row = length descriptions) (build_model_spec vectorize df).
Proof.
  intros Hd Hlen. unfold build_model_spec. rewrite Hd. simpl.
  rewrite <- Hlen. apply build_similarity_matrix_square.
Qed.

(** C6: the entry of the matrix for the vectors [a] and [b] is
    [dot(a,b) / (norm(a) * norm(b))] when both norms are non-zero, and the
    divisor is then non-zero; it is 0 when a norm is 0, which is the case of
    the all-zero vector of an empty description. *)
Theorem cosine_entry (vectors : list (list R)) (i j : nat) (a b : list R) :
  vectors !! i = Some a ->
  vectors !! j = Some b ->
  exists x,
    entry (build_similarity_matrix vectors) i j = Some x /\
    (norm a <> 0 -> norm b <> 0 ->
       norm a * norm b <> 0 /\ x = dot a b / (norm a * norm b)) /\
    (norm a = 0 \/ norm b = 0 -> x = 0) /\
    (Forall (fun v => v = 0) a \/ Forall (fun v => v = 0) b -> x = 0).
Proof.
  intros Ha Hb. exists (cosine a b).
  split; [by apply entry_build |].
  assert (norm a = 0 \/ norm b = 0 -> cosine a b = 0) as Hzero.
  { intros H. unfold cosine.
    destruct H as [H|H]; apply is_zero_true in H; rewrite H; [done |].
    by rewrite orb_true_r. }
  split; [| split; [done |]].
  - intros Hna Hnb. split.
    + intros H. apply Rmult_integral in H. tauto.
    + unfold cosine. apply is_zero_false in Hna, Hnb. by rewrite Hna, Hnb.
  - intros [H|H]; apply norm_zero in H; auto.
Qed.

(** C7: the matrix is symmetric: for [i] and [j] within the catalog the
    entries [(i, j)] and [(j, i)] exist and are equal. *)
Theorem similarity_matrix_symmetric (vectors : list (list R)) (i j : nat) :
  (i < length vectors)%nat ->
  (j < length vectors)%nat ->
  exists x,
    entry (build_similarity_matrix vectors) i j = Some x /\
    entry (build_similarity_matrix vectors) j i = Some x.
Proof.
  intros Hi Hj.
  destruct (lookup_lt_is_Some_2 _ _ Hi) as [a Ha].
  destruct (lookup_lt_is_Some_2 _ _ Hj) as [b Hb].
  exists (cosine a b). split.
  - by apply entry_build.
  - rewrite cosine_comm. by apply entry_build.
Qed.

End SimilarityFacts.

(** ** The theorems at work on the small catalogs *)

Lemma frame_wf (n : nat) (cols : list (string * list cell)) :
  Forall (fun p => length p.2 = n) cols -> df_wf (frame n cols).
Proof.
  intros Hall name col Hcol. unfold frame in Hcol. simpl in Hcol.
  apply elem_of_list_to_map_2 in Hcol.
  rewrite Forall_forall in Hall. apply (Hall _ Hcol).
Qed.

Lemma loaded_titles :
  df_cols loaded_catalog !! "title"
  = Some [Str "Naruto"; Str "Bleach"; Str "One Piece"].
Proof. vm_compute. reflexivity. Qed.

Lemma unknown_title_is_signalled_witness :
  recommend_anime example_not_found "Gintama" example_matrix loaded_catalog 5
    = inl "Anime 'Gintama' tidak ditemukan." /\
  (exists recs,
     recommend_anime example_not_found "bleach" example_matrix loaded_catalog 5
       = inr recs) /\
  recommendations_page
    (example_inputs (inr example_catalog) Rekomendasi "Gintama" [])
    loaded_catalog "Gintama" (inl "Anime 'Gintama' tidak ditemukan.") example_session
  = ([WarningMsg "Anime 'Gintama' tidak ditemukan."], example_session, Ret tt).
Proof.
  destruct (unknown_title_is_signalled example_not_found
              (example_inputs (inr example_catalog) Rekomendasi "Gintama" [])
              loaded_catalog example_matrix "Gintama" 5 example_session)
    as (Hnone & _ & Hpage).
  destruct (unknown_title_is_signalled example_not_found
              (example_inputs (inr example_catalog) Rekomendasi "Gintama" [])
              loaded_catalog example_matrix "bleach" 5 example_session)
    as (_ & Hsome & _).
  split; [| split].
  - apply Hnone. intros t Ht. unfold title_column in Ht.
    rewrite loaded_titles in Ht. simpl in Ht.
    rewrite !elem_of_cons, elem_of_nil in Ht.
    destruct Ht as [[= ->]|[[= ->]|[[= ->]|[]]]]; vm_compute; discriminate.
  - apply Hsome. exists "Bleach". split; [| vm_compute; reflexivity].
    unfold title_column. rewrite loaded_titles. simpl. by right; left.
  - apply Hpage.
Defined.

(** C2 as it is worded fails on a catalog with two titles that differ in
    case only: the reader picks the stored title [NARUTO], the title of row 1,
    and both the recommender's resolution and the page's lookup give row 0,
    the item [Naruto]. *)
Lemma case_twins_resolve_to_first :
  df_cols twin_catalog !! "title" = Some [Str "Naruto"; Str "NARUTO"] /\
  str_lower "NARUTO" = str_lower "NARUTO" /\
  resolve_title "NARUTO" twin_catalog = Some 0%nat /\
  selected_lookup twin_catalog "NARUTO" example_session
    = ([], example_session, Ret (row_at twin_catalog 0)) /\
  row_at twin_catalog 0 !! "title" = Some (Str "Naruto") /\
  row_at twin_catalog 0 <> row_at twin_catalog 1.
Proof.
  repeat split; try (vm_compute; reflexivity).
  intros H. apply (f_equal (fun r : Row => r !! "title")) in H.
  vm_compute in H. discriminate.
Qed.

Lemma title_resolution_first_match_witness :
  exists k t',
    (k <= 1)%nat /\
    [Str "Naruto"; Str "NARUTO"] !! k = Some (Str t') /\
    str_lower t' = str_lower "naruto" /\
    resolve_title "naruto" twin_catalog = Some k /\
    selected_lookup twin_catalog "naruto" example_session
      = ([], example_session, Ret (row_at twin_catalog k)) /\
    ((forall j u, (j < 1)%nat -> [Str "Naruto"; Str "NARUTO"] !! j = Some (Str u) ->
        str_lower u <> str_lower "naruto") -> k = 1%nat).
Proof.
  apply (title_resolution_first_match twin_catalog
           [Str "Naruto"; Str "NARUTO"] "naruto" "NARUTO" 1 example_session).
  - vm_compute. reflexivity.
  - reflexivity.
  - vm_compute. reflexivity.
Defined.

Lemma load_data_fills_defaults_witness :
  exists df,
    load_data (example_inputs (inr example_catalog) Rekomendasi "Naruto" [])
      example_session = ([], example_session, Ret df) /\
    df_len df = 3%nat /\
    df_cols df !! "score" = Some [Num 8.5%Q; Num 0%Q; Num 0%Q] /\
    df_cols df !! "genres" = Some [Str "Action"; Str "Unknown"; Str "Adventure"] /\
    df_cols df !! "synopsis_clean" = Some [Str "young ninja"; Str ""; Str "pirates sea"].
Proof.
  destruct (load_data_fills_defaults
              (example_inputs (inr example_catalog) Rekomendasi "Naruto" [])
              example_catalog example_session
              [Str "8.5"; NaN; Str "n/a"]
              [Str "Action"; NaN; Str "Adventure"]
              [Str "young ninja"; NaN; Str "pirates sea"])
    as (df & Hload & Hlen & Hscore & Hgenres & Hsyn & _).
  - reflexivity.
  - vm_compute. reflexivity.
  - vm_compute. reflexivity.
  - vm_compute. reflexivity.
  - exists df. repeat split; assumption.
Defined.

(** C4 as it is worded fails in both directions: a file name that starts
    with [http] is not an absolute URI and is kept, and an absolute URI of the
    [ftp] scheme is replaced by the placeholder. *)
Lemma image_test_is_a_prefix_test :
  absolute_uri_spec "httpd_logo.png" = false /\
  absolute_uri_spec "ftp://cdn.example/bleach.jpg" = true /\
  exists df,
    load_data (example_inputs (inr odd_images_catalog) Rekomendasi "Naruto" [])
      example_session = ([], example_session, Ret df) /\
    df_cols df !! "image_url" = Some [Str "httpd_logo.png"; Str placeholder].
Proof.
  split; [reflexivity |]. split; [reflexivity |].
  eexists. split; vm_compute; reflexivity.
Qed.

Lemma image_reference_fallback_witness :
  exists df images,
    load_data (example_inputs (inr example_catalog) Rekomendasi "Naruto" [])
      example_session = ([], example_session, Ret df) /\
    df_cols df !! "image_url" = Some images /\
    images = [Str "https://cdn.example/naruto.jpg"; Str placeholder; Str placeholder].
Proof.
  destruct (image_reference_fallback
              (example_inputs (inr example_catalog) Rekomendasi "Naruto" [])
              example_catalog example_session
              [Str "8.5"; NaN; Str "n/a"]
              [Str "Action"; NaN; Str "Adventure"]
              [Str "young ninja"; NaN; Str "pirates sea"])
    as (df & images & Hload & Himg & Hspec).
  - reflexivity.
  - vm_compute. reflexivity.
  - vm_compute. reflexivity.
  - vm_compute. reflexivity.
  - exists df, images. split; [exact Hload |]. split; [exact Himg |].
    assert (df_cols example_catalog !! "image_url"
            = Some [Str "https://cdn.example/naruto.jpg"; NaN; Str "covers/onepiece.jpg"])
      as Hraw by (vm_compute; reflexivity).
    rewrite Hraw in Hspec. destruct Hspec as [Hlen Hcells].
    pose proof (Hcells 0%nat _ eq_refl) as H0.
    pose proof (Hcells 1%nat _ eq_refl) as H1.
    pose proof (Hcells 2%nat _ eq_refl) as H2.
    destruct images as [|x0 [|x1 [|x2 [|x3 images]]]]; try discriminate.
    simpl in H0, H1, H2. congruence.
Defined.

Lemma Qle_bool_total (x y : Q) : Qle_bool x y = true \/ Qle_bool y x = true.
Proof.
  rewrite !Qle_bool_iff. destruct (Qlt_le_dec x y) as [H|H]; [left | right]; [| done].
  by apply Qlt_le_weak.
Qed.

Lemma Qle_bool_trans (x y z : Q) :
  Qle_bool x y = true -> Qle_bool y z = true -> Qle_bool x z = true.
Proof. rewrite !Qle_bool_iff. apply Qle_trans. Qed.

Lemma recommend_anime_count_witness :
  exists recs,
    recommend_anime example_not_found "Bleach" example_matrix loaded_catalog 5
      = inr recs /\
    df_len recs = 2%nat /\
    (exists j x, row_at recs 0 = <["similarity" := Num x]> (row_at loaded_catalog j)) /\
    rekomendasi_view example_not_found
      (example_inputs (inr example_catalog) Rekomendasi "Bleach" [])
      loaded_catalog example_matrix example_session
    = recommendations_page
        (example_inputs (inr example_catalog) Rekomendasi "Bleach" [])
        loaded_catalog "Bleach" (inr recs)
        {| logged_in := true; username := Some "wahyu"; show_recommendations := true |}.
Proof.
  destruct (recommend_anime_count example_not_found loaded_catalog example_matrix
              "Bleach" 1 [0.5; 1; 0.25]%Q) as (ranked & _ & _ & _ & _ & Hcall & Hpage).
  - apply frame_wf. repeat constructor.
  - vm_compute. reflexivity.
  - reflexivity.
  - reflexivity.
  - exact Qle_bool_total.
  - exact Qle_bool_trans.
  - destruct (Hcall 5 ltac:(lia)) as (recs & Hrecs & Hlen & _ & Hrows).
    exists recs. split; [exact Hrecs |]. split; [exact Hlen |]. split.
    + destruct (Hrows 0%nat) as (j & x & _ & Hrow).
      * rewrite Hlen. simpl. lia.
      * by exists j, x.
    + destruct (Hpage (example_inputs (inr example_catalog) Rekomendasi "Bleach" [])
                  example_session) as (recs' & _ & Hrecs' & _ & Hview).
      * vm_compute. reflexivity.
      * left. reflexivity.
      * change (st_slider 1 10 5
                  (slider_pos (example_inputs (inr example_catalog) Rekomendasi "Bleach" [])))
          with 5 in Hrecs'.
        rewrite Hrecs in Hrecs'. injection Hrecs' as <-. exact Hview.
Defined.

Lemma load_failure_is_fatal_witness :
  load_data (example_inputs (inl (IOError "No such file")) Rekomendasi "Naruto" [])
    example_session
  = ([ErrorMsg "Gagal memuat dataset: No such file"], example_session, Stop) /\
  main example_model example_not_found
    (example_inputs (inl (IOError "No such file")) Rekomendasi "Naruto" [])
    example_session
  = ([PageConfig; Style "body {}"; SidebarUser "wahyu"; LogoutControl; PageTitle;
      ErrorMsg "Gagal memuat dataset: No such file"],
     example_session, Stop).
Proof.
  destruct (load_failure_is_fatal example_model example_not_found
              (example_inputs (inl (IOError "No such file")) Rekomendasi "Naruto" [])
              example_session example_session [] (IOError "No such file"))
    as [Hload Hmain].
  - reflexivity.
  - split; [exact Hload |]. apply Hmain; reflexivity.
Defined.

Lemma bookmark_cards_show_one_witness :
  Card (Str "Bleach") (Str "Unknown") (Num 0%Q) (Num 1%Q)
       (Str "Sinopsis tidak tersedia") (Str placeholder)
    ∈ (main example_model example_not_found
         (example_inputs (inr example_catalog) Bookmark "Naruto" ["Bleach"])
         example_session).1.1 /\
  Num 1%Q = Num f_one.
Proof.
  assert (Card (Str "Bleach") (Str "Unknown") (Num 0%Q) (Num 1%Q)
               (Str "Sinopsis tidak tersedia") (Str placeholder)
            ∈ (main example_model example_not_found
                 (example_inputs (inr example_catalog) Bookmark "Naruto" ["Bleach"])
                 example_session).1.1) as Hin.
  { vm_compute. repeat constructor. }
  split; [exact Hin |].
  apply (bookmark_cards_show_one example_model example_not_found
           (example_inputs (inr example_catalog) Bookmark "Naruto" ["Bleach"])
           example_session _ _ _ _ _ _ eq_refl Hin).
Defined.

Lemma bookmark_lookup_exact_witness :
  str_lower "naruto" = str_lower "Naruto" /\
  bookmark_lookup loaded_catalog "naruto" example_session
    = ([], example_session,
       Raise (IndexError "single positional indexer is out-of-bounds")) /\
  (bookmark_view
     (example_inputs (inr example_catalog) Bookmark "Naruto" ["naruto"; "Bleach"])
     loaded_catalog example_session).2
    = Raise (IndexError "single positional indexer is out-of-bounds") /\
  bookmark_lookup loaded_catalog "Bleach" example_session
    = ([], example_session, Ret (row_at loaded_catalog 1)).
Proof.
  destruct (bookmark_lookup_exact
              (example_inputs (inr example_catalog) Bookmark "Naruto" ["naruto"; "Bleach"])
              loaded_catalog [Str "Naruto"; Str "Bleach"; Str "One Piece"]
              "naruto" example_session loaded_titles) as [_ Hmiss].
  destruct (bookmark_lookup_exact
              (example_inputs (inr example_catalog) Bookmark "Naruto" ["naruto"; "Bleach"])
              loaded_catalog [Str "Naruto"; Str "Bleach"; Str "One Piece"]
              "Bleach" example_session loaded_titles) as [Hfound _].
  destruct Hmiss as [Hlook Hview].
  - rewrite !not_elem_of_cons. repeat split; try discriminate. apply not_elem_of_nil.
  - split; [vm_compute; reflexivity |].
    split; [exact Hlook |].
    split; [exact (Hview _ eq_refl) |].
    apply (Hfound 1%nat); [reflexivity |].
    intros [|j] Hj; [discriminate | lia].
Defined.

Section SimilarityWitnesses.
Local Open Scope R_scope.

Lemma norm_3_4 : norm [3; 4] = 5.
Proof.
  unfold norm, dot. simpl. apply sqrt_lem_1; lra.
Qed.

Lemma norm_4_3 : norm [4; 3] = 5.
Proof.
  unfold norm, dot. simpl. apply sqrt_lem_1; lra.
Qed.

Example cosine_3_4_4_3 : cosine [3; 4] [4; 3] = 24 / 25.
Proof.
  unfold cosine. rewrite norm_3_4, norm_4_3.
  rewrite (proj2 (is_zero_false 5)) by lra. simpl.
  unfold dot. simpl. lra.
Qed.

Example cosine_empty_description : cosine [3; 4] [0; 0] = 0.
Proof.
  unfold cosine.
  assert (norm [0; 0] = 0) as -> by (apply norm_zero; repeat constructor).
  rewrite (proj2 (is_zero_true 0)) by done. by rewrite orb_true_r.
Qed.

Lemma cosine_entry_witness :
  exists x,
    entry (build_similarity_matrix [[3; 4]; [0; 0]; [4; 3]]) 0 2 = Some x /\
    (norm [3; 4] <> 0 -> norm [4; 3] <> 0 ->
       norm [3; 4] * norm [4; 3] <> 0 /\
       x = dot [3; 4] [4; 3] / (norm [3; 4] * norm [4; 3])) /\
    (norm [3; 4] = 0 \/ norm [4; 3] = 0 -> x = 0) /\
    (Forall (fun v => v = 0) [3; 4] \/ Forall (fun v => v = 0) [4; 3] -> x = 0).
Proof.
  apply (cosine_entry [[3; 4]; [0; 0]; [4; 3]] 0 2 [3; 4] [4; 3]); reflexivity.
Defined.

Lemma similarity_matrix_symmetric_witness :
  exists x,
    entry (build_similarity_matrix [[3; 4]; [0; 0]; [4; 3]]) 0 2 = Some x /\
    entry (build_similarity_matrix [[3; 4]; [0; 0]; [4; 3]]) 2 0 = Some x.
Proof.
  apply (similarity_matrix_symmetric [[3; 4]; [0; 0]; [4; 3]] 0 2); simpl; lia.
Defined.

End SimilarityWitnesses.

(** ** More about the loader *)

Section LoaderFacts.
Context {FL : Float} {RT : Runtime}.

Ltac script_step :=
  unfold mbind, M_bind, mret, M_ret, bind, ret, emit, raise, st_stop,
    get_session, put_session; simpl.

Lemma load_body_no_genres (inp : Inputs) (raw : DataFrame) (s : Session)
    (score : list cell) :
  csv_file inp = inr raw -> df_cols raw !! "score" = Some score ->
  df_cols raw !! "genres" = None ->
  load_body inp s = ([], s, Raise (KeyError "genres")).
Proof.
  intros H Hs Hg. unfold load_body, read_csv, getitem. rewrite H.
  script_step. rewrite Hs. simpl. rewrite lookup_insert_ne by done.
  rewrite Hg. done.
Qed.

Lemma load_body_no_synopsis_clean (inp : Inputs) (raw : DataFrame) (s : Session)
    (score genres : list cell) :
  csv_file inp = inr raw -> df_cols raw !! "score" = Some score ->
  df_cols raw !! "genres" = Some genres ->
  df_cols raw !! "synopsis_clean" = None ->
  load_body inp s = ([], s, Raise (KeyError "synopsis_clean")).
Proof.
  intros H Hs Hg Hc. unfold load_body, read_csv, getitem. rewrite H.
  script_step. rewrite Hs. simpl. rewrite lookup_insert_ne by done.
  rewrite Hg. simpl. rewrite !lookup_insert_ne by done.
  destruct (df_cols raw !! "image_url") as [img|] eqn:Himg; simpl.
  - rewrite !lookup_insert_ne by done. rewrite Himg. simpl.
    rewrite !lookup_insert_ne by done. rewrite Hc. done.
  - rewrite lookup_insert_eq. simpl.
    rewrite !lookup_insert_ne by done. rewrite Hc. done.
Qed.

(** The body of the loader either returns the cleaned frame or raises; it
    shows nothing and leaves the session alone. *)
Lemma load_body_cases (inp : Inputs) (s : Session) :
  (exists raw score genres synopsis_clean,
     csv_file inp = inr raw /\
     df_cols raw !! "score" = Some score /\
     df_cols raw !! "genres" = Some genres /\
     df_cols raw !! "synopsis_clean" = Some synopsis_clean /\
     load_body inp s =
       ([], s,
        Ret {| df_len := df_len raw;
               df_cols :=
                 <["synopsis_clean" := fillna (Str "") synopsis_clean]>
                 (<["image_url" := image_or_placeholder <$>
                      default (replicate (df_len raw) (Str placeholder))
                        (df_cols raw !! "image_url")]>
                 (<["genres" := fillna (Str "Unknown") genres]>
                 (<["score" := fillna (Num f_zero) (to_numeric <$> score)]>
                    (df_cols raw)))) |})) \/
  (exists e,
     load_body inp s = ([], s, Raise e) /\
     (csv_file inp = inl e \/
      exists raw name,
        csv_file inp = inr raw /\ e = KeyError name /\
        name ∈ ["score"; "genres"; "synopsis_clean"] /\
        df_cols raw !! name = None)).
Proof.
  destruct (csv_file inp) as [e|raw] eqn:Hcsv.
  { right. exists e. split; [by apply load_body_unreadable | by left]. }
  destruct (df_cols raw !! "score") as [score|] eqn:Hs.
  2:{ right. exists (KeyError "score"). split; [by eapply load_body_no_score |].
      right. exists raw, "score". repeat split; try done. set_solver. }
  destruct (df_cols raw !! "genres") as [genres|] eqn:Hg.
  2:{ right. exists (KeyError "genres"). split; [by eapply load_body_no_genres |].
      right. exists raw, "genres". repeat split; try done. set_solver. }
  destruct (df_cols raw !! "synopsis_clean") as [syn|] eqn:Hc.
  2:{ right. exists (KeyError "synopsis_clean").
      split; [by eapply load_body_no_synopsis_clean |].
      right. exists raw, "synopsis_clean". repeat split; try done. set_solver. }
  left. exists raw, score, genres, syn. repeat split; try done.
  by apply load_body_ok.
Qed.

(** What a successful load tells about the catalog and the frame. *)
Lemma load_data_inv (inp : Inputs) (s s' : Session) (evs : list event) (df : DataFrame) :
  load_data inp s = (evs, s', Ret df) ->
  exists raw score genres synopsis_clean,
    csv_file inp = inr raw /\
    df_cols raw !! "score" = Some score /\
    df_cols raw !! "genres" = Some genres /\
    df_cols raw !! "synopsis_clean" = Some synopsis_clean /\
    evs = [] /\ s' = s /\
    df = {| df_len := df_len raw;
            df_cols :=
              <["synopsis_clean" := text_or "" <$> synopsis_clean]>
              (<["image_url" := image_or_placeholder <$>
                   default (replicate (df_len raw) (Str placeholder))
                     (df_cols raw !! "image_url")]>
              (<["genres" := text_or "Unknown" <$> genres]>
              (<["score" := score_or_zero <$> score]> (df_cols raw)))) |}.
Proof.
  intros Hload. unfold load_data, try_except in Hload.
  destruct (load_body_cases inp s)
    as [(raw & score & genres & syn & Hcsv & Hs & Hg & Hc & Hbody)|(e & Hbody & _)];
    rewrite Hbody in Hload.
  - injection Hload as <- <- <-.
    exists raw, score, genres, syn. repeat split; try done.
    by rewrite fillna_to_numeric, !fillna_text.
  - simpl in Hload. discriminate.
Qed.

(** X1: [load_data] never raises and never touches the session: it either
    returns a frame and shows nothing, or shows the one error message and
    stops the run. *)
Theorem load_data_returns_or_stops (inp : Inputs) (s : Session) :
  (exists df, load_data inp s = ([], s, Ret df)) \/
  (exists e,
     load_data inp s =
       ([ErrorMsg ("Gagal memuat dataset: " ++ exn_str e)], s, Stop)).
Proof.
  unfold load_data, try_except.
  destruct (load_body_cases inp s)
    as [(raw & score & genres & syn & _ & _ & _ & _ & Hbody)|(e & Hbody & _)];
    rewrite Hbody.
  - left. eauto.
  - right. exists e. done.
Qed.

(** X2: the load succeeds exactly when the file can be read and has the
    score, genres and synopsis_clean columns; the image column is not
    needed. *)
Theorem load_data_succeeds_iff (inp : Inputs) (s : Session) :
  (exists evs s' df, load_data inp s = (evs, s', Ret df)) <->
  (exists raw,
     csv_file inp = inr raw /\
     forall name, name ∈ ["score"; "genres"; "synopsis_clean"] ->
       is_Some (df_cols raw !! name)).
Proof.
  split.
  - intros (evs & s' & df & Hload).
    apply load_data_inv in Hload
      as (raw & score & genres & syn & Hcsv & Hs & Hg & Hc & _).
    exists raw. split; [done |]. intros name Hname.
    rewrite !elem_of_cons, elem_of_nil in Hname.
    destruct Hname as [->|[->|[->|[]]]]; eauto.
  - intros (raw & Hcsv & Hcols).
    destruct (Hcols "score") as [score Hs]; [set_solver |].
    destruct (Hcols "genres") as [genres Hg]; [set_solver |].
    destruct (Hcols "synopsis_clean") as [syn Hc]; [set_solver |].
    eexists [], s, _. apply load_data_returns. by eapply load_body_ok.
Qed.

(** X3: the load keeps the number of rows and every column other than the
    four it cleans (the title and the synopsis among them), and a frame with
    one entry per row in every column stays so. *)
Theorem load_data_keeps_other_columns (inp : Inputs) (s s' : Session)
    (evs : list event) (raw df : DataFrame) :
  load_data inp s = (evs, s', Ret df) ->
  csv_file inp = inr raw ->
  df_len df = df_len raw /\
  (forall name,
     name ∉ ["score"; "genres"; "image_url"; "synopsis_clean"] ->
     df_cols df !! name = df_cols raw !! name) /\
  (df_wf raw -> df_wf df).
Proof.
  intros Hload Hcsv.
  apply load_data_inv in Hload
    as (raw' & score & genres & syn & Hcsv' & Hs & Hg & Hc & _ & _ & ->).
  assert (raw' = raw) as -> by congruence.
  split; [done |]. split.
  - intros name Hname. simpl.
    rewrite !not_elem_of_cons in Hname. destruct Hname as (? & ? & ? & ? & _).
    by rewrite !lookup_insert_ne by done.
  - intros Hwf name col. simpl.
    rewrite !lookup_insert. repeat case_decide; subst.
    + intros [= <-]. rewrite length_fmap. by apply (Hwf _ _ Hc).
    + intros [= <-]. rewrite length_fmap.
      destruct (df_cols raw !! "image_url") as [img|] eqn:Himg; simpl.
      * by apply (Hwf _ _ Himg).
      * by rewrite length_replicate.
    + intros [= <-]. rewrite length_fmap. by apply (Hwf _ _ Hg).
    + intros [= <-]. rewrite length_fmap. by apply (Hwf _ _ Hs).
    + apply Hwf.
Qed.

Lemma image_or_placeholder_http (x : cell) :
  startswith_http (image_or_placeholder x) = true.
Proof.
  unfold image_or_placeholder. destruct (startswith_http x) eqn:Hx; [done |].
  reflexivity.
Qed.

(** X4: after the load the image column is there and every reference in it
    is a text that starts with [http]. *)
Theorem load_data_images_http (inp : Inputs) (s s' : Session)
    (evs : list event) (df : DataFrame) :
  load_data inp s = (evs, s', Ret df) ->
  exists images,
    df_cols df !! "image_url" = Some images /\
    Forall (fun c => exists t, c = Str t /\ String.prefix "http" t = true) images.
Proof.
  intros Hload.
  apply load_data_inv in Hload
    as (raw & score & genres & syn & _ & _ & _ & _ & _ & _ & ->).
  eexists. simpl. rewrite lookup_insert_ne by done. rewrite lookup_insert_eq.
  split; [done |].
  apply Forall_fmap, Forall_forall. intros c _. simpl.
  pose proof (image_or_placeholder_http c) as H.
  destruct (image_or_placeholder c) as [|x|t]; simpl in H; try discriminate.
  eauto.
Qed.

(** X5: after the load every score is a number, never a text and never
    missing, so it can be shown with two decimals. *)
Theorem load_data_scores_numeric (inp : Inputs) (s s' : Session)
    (evs : list event) (df : DataFrame) :
  load_data inp s = (evs, s', Ret df) ->
  exists scores,
    df_cols df !! "score" = Some scores /\
    Forall (fun c => is_num c = true) scores.
Proof.
  intros Hload.
  apply load_data_inv in Hload
    as (raw & score & genres & syn & _ & _ & _ & _ & _ & _ & ->).
  eexists. simpl. rewrite !lookup_insert_ne by done. rewrite lookup_insert_eq.
  split; [done |].
  apply Forall_fmap, Forall_forall. intros c _. simpl.
  destruct c as [|x|t]; simpl; [done | done |].
  by destruct (to_numeric_str t).
Qed.

Lemma score_or_zero_idemp (c : cell) : score_or_zero (score_or_zero c) = score_or_zero c.
Proof.
  destruct c as [|x|t]; simpl; [done | done |]. by destruct (to_numeric_str t).
Qed.

Lemma text_or_idemp (d : string) (c : cell) : text_or d (text_or d c) = text_or d c.
Proof. by destruct c. Qed.

Lemma image_or_placeholder_idemp (x : cell) :
  image_or_placeholder (image_or_placeholder x) = image_or_placeholder x.
Proof.
  unfold image_or_placeholder at 1. by rewrite image_or_placeholder_http.
Qed.

Lemma fmap_idemp {A} (f : A -> A) (l : list A) :
  (forall x, f (f x) = f x) -> f <$> (f <$> l) = f <$> l.
Proof.
  intros Hf. rewrite <- list_fmap_compose. apply list_fmap_ext. intros _ x _. apply Hf.
Qed.

(** X6: cleaning is idempotent: a frame that [load_data] returned, read
    again as the catalog, is returned as it is. *)
Theorem load_data_idempotent (inp inp' : Inputs) (s s' s2 : Session)
    (evs : list event) (df : DataFrame) :
  load_data inp s = (evs, s', Ret df) ->
  csv_file inp' = inr df ->
  load_data inp' s2 = ([], s2, Ret df).
Proof.
  intros Hload Hcsv'.
  apply load_data_inv in Hload
    as (raw & score & genres & syn & _ & _ & _ & _ & _ & _ & Hdf).
  assert (df_cols df !! "score" = Some (score_or_zero <$> score)) as Hs'.
  { rewrite Hdf. simpl. rewrite !lookup_insert_ne by done. apply lookup_insert_eq. }
  assert (df_cols df !! "genres" = Some (text_or "Unknown" <$> genres)) as Hg'.
  { rewrite Hdf. simpl. rewrite !lookup_insert_ne by done. apply lookup_insert_eq. }
  assert (exists images, df_cols df !! "image_url" = Some (image_or_placeholder <$> images))
    as [images Hi'].
  { eexists. rewrite Hdf. simpl. rewrite !lookup_insert_ne by done. apply lookup_insert_eq. }
  assert (df_cols df !! "synopsis_clean" = Some (text_or "" <$> syn)) as Hc'.
  { rewrite Hdf. simpl. apply lookup_insert_eq. }
  clear Hdf. apply load_data_returns.
  rewrite (load_body_ok inp' df s2 _ _ _ Hcsv' Hs' Hg' Hc').
  rewrite Hi'. simpl default.
  rewrite fillna_to_numeric, !fillna_text.
  rewrite (fmap_idemp _ _ score_or_zero_idemp).
  rewrite !(fmap_idemp _ _ (text_or_idemp _)).
  rewrite (fmap_idemp _ _ image_or_placeholder_idemp).
  rewrite (insert_id (df_cols df) "score") by done.
  rewrite (insert_id (df_cols df) "genres") by done.
  rewrite (insert_id (df_cols df) "image_url") by done.
  rewrite (insert_id (df_cols df) "synopsis_clean") by done.
  by destruct df.
Qed.

End LoaderFacts.

(** ** More about the page *)

Section PageFacts.
Context {FL : Float} {RT : Runtime}.
Variable build_model : DataFrame -> list (list float).
Variable not_found_message : string -> string.

Ltac script_step :=
  unfold mbind, M_bind, mret, M_ret, bind, ret, emit, raise, st_stop,
    get_session, put_session; simpl.

Lemma session_kept_refl (s : Session) : session_kept s s.
Proof. by repeat split. Qed.

(** What one call to [display_anime_card] shows and how it ends; it leaves
    the session alone. *)
Lemma display_anime_card_cases (inp : Inputs) (registered : list string)
    (title genres score similarity synopsis image_url : cell) (s : Session) :
  exists evs o,
    display_anime_card inp registered title genres score similarity synopsis
      image_url s = (evs, s, o) /\
    (evs = [] \/
     (exists rating, evs = [CardFragment image_url title genres rating]) \/
     evs = [Card title genres score similarity
              (if notna synopsis then synopsis else Str "Sinopsis tidak tersedia")
              image_url] \/
     (evs = [Card title genres score similarity
               (if notna synopsis then synopsis else Str "Sinopsis tidak tersedia")
               image_url; AddBookmark title] /\
      logged_in s = true /\ bookmark_clicked inp title = true)).
Proof.
  unfold display_anime_card, st_image.
  destruct (image_error (as_text image_url)); [eexists _, _; split; [done | by left] |].
  destruct score, similarity; script_step;
    try (eexists _, _; split; [done | right; left; by eexists]);
    destruct (logged_in s) eqn:Hlog; simpl;
    try (eexists _, _; split; [done | right; right; by left]);
    destruct (bool_decide (bookmark_key title ∈ registered)); simpl;
    try (eexists _, _; split; [done | right; right; by left]);
    destruct (bookmark_clicked inp title) eqn:Hclick; simpl;
    try (eexists _, _; split; [done | right; right; by left]);
    (eexists _, _; split; [done | right; right; right; done]).
Qed.

Lemma display_anime_card_session (inp : Inputs) (registered : list string)
    (title genres score similarity synopsis image_url : cell) (s : Session) :
  (display_anime_card inp registered title genres score similarity synopsis
     image_url s).1.2 = s.
Proof.
  destruct (display_anime_card_cases inp registered title genres score similarity
              synopsis image_url s) as (evs & o & -> & _). done.
Qed.

Section Respects.
Variable Q : list event -> Prop.
Hypothesis Q_nil : Q [].
Hypothesis Q_app : forall a b, Q a -> Q b -> Q (a ++ b).
Variable s0 : Session.

Lemma respects_bind {A B} (m : M A) (f : A -> M B) :
  respects Q s0 m -> (forall a, respects Q s0 (f a)) -> respects Q s0 (m ≫= f).
Proof.
  intros Hm Hf s Hs. specialize (Hm s Hs).
  unfold mbind, M_bind, bind.
  destruct (m s) as [[ev1 s1] [a|e|]]; simpl in *; try done.
  destruct Hm as [Hq Hk]. specialize (Hf a s1 Hk).
  destruct (f a s1) as [[ev2 s2] o]. simpl in *.
  destruct Hf. split; [by apply Q_app | done].
Qed.

Lemma respects_get {B} (f : Session -> M B) :
  (forall s, session_kept s0 s -> respects Q s0 (f s)) ->
  respects Q s0 (get_session ≫= f).
Proof.
  intros Hf s Hs. specialize (Hf s Hs s Hs).
  unfold mbind, M_bind, bind, get_session.
  destruct (f s s) as [[ev2 s2] o]. simpl in *. done.
Qed.

Lemma respects_quiet {A} (m : M A) :
  (forall s, exists o, m s = ([], s, o)) -> respects Q s0 m.
Proof. intros Hm s Hs. destruct (Hm s) as [o ->]. done. Qed.

Lemma respects_emit (e : event) : Q [e] -> respects Q s0 (emit e).
Proof. intros He s Hs. done. Qed.

Lemma respects_fold_each {A S} (l : list A) (acc : S) (body : S -> A -> M S) :
  (forall acc x, respects Q s0 (body acc x)) -> respects Q s0 (fold_each l acc body).
Proof.
  intros Hbody. revert acc. induction l as [|x l IH]; intros acc; simpl.
  - apply respects_quiet. intros s. by eexists.
  - apply respects_bind; [apply Hbody | intros acc'; apply IH].
Qed.

Lemma respects_st_image (image : cell) : respects Q s0 (st_image image).
Proof.
  apply respects_quiet. intros s. unfold st_image.
  destruct (image_error (as_text image)); by eexists.
Qed.

Lemma respects_select_title (inp : Inputs) (df : DataFrame) :
  respects Q s0 (select_title inp df).
Proof.
  apply respects_quiet. intros s. unfold select_title, getitem, title_options.
  destruct (df_cols df !! "title") as [titles|]; [| by eexists].
  script_step.
  destruct (omap as_text titles); [destruct titles; by eexists |].
  destruct (forallb _ titles); by eexists.
Qed.

Lemma respects_getitem (df : DataFrame) (name : string) :
  respects Q s0 (getitem df name).
Proof.
  apply respects_quiet. intros s. unfold getitem.
  destruct (df_cols df !! name); by eexists.
Qed.

Lemma respects_getfield (r : Row) (name : string) :
  respects Q s0 (getfield r name).
Proof.
  apply respects_quiet. intros s. unfold getfield.
  destruct (r !! name); by eexists.
Qed.

Lemma respects_iloc0 (df : DataFrame) : respects Q s0 (iloc0 df).
Proof.
  apply respects_quiet. intros s. unfold iloc0.
  destruct (df_len df); by eexists.
Qed.

Lemma respects_load_data (inp : Inputs) :
  (forall e, static e -> Q [e]) -> respects Q s0 (load_data inp).
Proof.
  intros Hstatic s Hs. unfold load_data, try_except.
  destruct (load_body_cases inp s)
    as [(raw & score & genres & syn & _ & _ & _ & _ & Hbody)|(e & Hbody & _)];
    rewrite Hbody; simpl; [done |].
  split; [by apply Hstatic | done].
Qed.

(** The page of [main] satisfies [Q] as soon as each static element, each
    card with its bookmark button and the one call that removes bookmarks
    do. *)
Lemma main_respects (inp : Inputs) :
  (forall e, static e -> Q [e]) ->
  (forall s registered title genres score similarity synopsis image_url,
     session_kept s0 s ->
     Q (display_anime_card inp registered title genres score similarity synopsis
          image_url s).1.1) ->
  (menu_choice inp = Bookmark -> delete_clicked inp = true ->
   selected_to_delete inp <> [] -> stored_bookmarks inp <> [] ->
   Q [RemoveBookmarks (selected_to_delete inp)]) ->
  respects Q s0 (main build_model not_found_message inp).
Proof.
  intros Hstatic Hcard Hremove.
  assert (forall registered title genres score similarity synopsis image_url,
            respects Q s0
              (display_anime_card inp registered title genres score similarity
                 synopsis image_url))
    as Hdisplay.
  { intros reg t g sc sim syn img s Hs. split; [by apply Hcard |].
    by rewrite display_anime_card_session. }
  unfold main.
  apply respects_bind; [by apply respects_emit, Hstatic |]. intros _.
  apply respects_bind.
  { unfold local_css. destruct (css_file inp).
    - apply respects_quiet. intros s. by eexists.
    - by apply respects_emit, Hstatic. }
  intros _. apply respects_get. intros s1 Hs1.
  destruct (logged_in s1); simpl; [| by apply respects_emit, Hstatic].
  destruct (username s1) as [name|].
  2:{ apply respects_quiet. intros s. by eexists. }
  do 3 (apply respects_bind; [by apply respects_emit, Hstatic | intros _]).
  apply respects_bind; [by apply respects_load_data |]. intros df.
  destruct (menu_choice inp) eqn:Hmenu.
  - unfold rekomendasi_view.
    apply respects_bind; [apply respects_select_title |]. intros selected.
    apply respects_bind.
    { unfold request_step. destruct (recommend_clicked inp).
      - apply respects_get. intros s2 Hs2 s3 Hs3. simpl.
        split; [done |]. destruct Hs2 as (? & ? & ?). by repeat split.
      - apply respects_quiet. intros s. by eexists. }
    intros _. apply respects_get. intros s2 Hs2.
    destruct (show_recommendations s2).
    2:{ apply respects_quiet. intros s. by eexists. }
    apply respects_bind.
    { apply respects_quiet. intros s. destruct selected; by eexists. }
    intros t.
    unfold recommendations_page.
    destruct (recommend_anime _ _ _ _ _) as [msg|recs].
    { by apply respects_emit, Hstatic. }
    apply respects_bind.
    { unfold selected_lookup. apply respects_bind; [apply respects_getitem |].
      intros titles. apply respects_iloc0. }
    intros row.
    apply respects_bind; [by apply respects_emit, Hstatic | intros _].
    apply respects_bind; [apply respects_getfield | intros ?].
    apply respects_bind; [apply respects_st_image | intros _].
    apply respects_bind; [by apply respects_emit, Hstatic | intros _].
    do 3 (apply respects_bind; [apply respects_getfield | intros ?];
          apply respects_bind; [by apply respects_emit, Hstatic | intros _]).
    apply respects_bind; [by apply respects_emit, Hstatic | intros _].
    apply respects_bind.
    2:{ intros _. apply respects_quiet. intros s. by eexists. }
    apply respects_fold_each. intros reg r.
    do 6 (apply respects_bind; [apply respects_getfield | intros ?]).
    apply Hdisplay.
  - unfold bookmark_view.
    apply respects_bind; [by apply respects_emit, Hstatic | intros _].
    destruct (stored_bookmarks inp) as [|b bs] eqn:Hstored.
    { by apply respects_emit, Hstatic. }
    apply respects_bind.
    { destruct (delete_clicked inp) eqn:Hdel.
      - destruct (selected_to_delete inp) as [|d ds] eqn:Hsel.
        + by apply respects_emit, Hstatic.
        + apply respects_emit. by apply Hremove.
      - apply respects_quiet. intros s. by eexists. }
    intros _. apply respects_bind.
    2:{ intros _. apply respects_quiet. intros s. by eexists. }
    apply respects_fold_each. intros reg title.
    unfold bookmark_card.
    apply respects_bind.
    { unfold bookmark_lookup. apply respects_bind; [apply respects_getitem |].
      intros titles. apply respects_iloc0. }
    intros row.
    do 5 (apply respects_bind; [apply respects_getfield | intros ?]).
    apply Hdisplay.
Qed.

End Respects.

Lemma Forall_nil_app (P : event -> Prop) :
  Forall P [] /\ forall a b, Forall P a -> Forall P b -> Forall P (a ++ b).
Proof. split; [constructor | intros a b Ha Hb; by apply Forall_app]. Qed.

(** X7: whatever the catalog holds, no card of the page shows a missing
    synopsis: a missing one is replaced by the text that says so. *)
Theorem cards_show_a_synopsis (inp : Inputs) (s : Session)
    (title genres score similarity synopsis image_url : cell) :
  Card title genres score similarity synopsis image_url
    ∈ (main build_model not_found_message inp s).1.1 ->
  isna synopsis = false.
Proof.
  intros Hin.
  set (P := fun e => match e with
                     | Card _ _ _ _ syn _ => isna syn = false
                     | _ => True
                     end).
  destruct (Forall_nil_app P) as [Hnil Happ].
  destruct (main_respects (Forall P) Hnil Happ s inp) with (s := s) as [Hall _].
  - intros e He. constructor; [| constructor]. by destruct e.
  - intros s1 reg t g sc sim syn img _.
    assert (isna (if notna syn then syn else Str "Sinopsis tidak tersedia") = false) as Hsyn.
    { unfold notna. by destruct (isna syn) eqn:Hs. }
    destruct (display_anime_card_cases inp reg t g sc sim syn img s1)
      as (evs & o & -> & [->|[[r ->]|[->|[-> _]]]]); simpl; by repeat constructor.
  - intros _ _ _ _. by repeat constructor.
  - apply session_kept_refl.
  - rewrite Forall_forall in Hall. apply (Hall _ Hin).
Qed.

(** X8: the bookmark store is asked to add a title only when the reader is
    logged in, has pressed the button of that title, and the card of that
    title is on the page. *)
Theorem add_bookmark_only_on_click (inp : Inputs) (s : Session) (title : cell) :
  AddBookmark title ∈ (main build_model not_found_message inp s).1.1 ->
  logged_in s = true /\
  bookmark_clicked inp title = true /\
  exists genres score similarity synopsis image_url,
    Card title genres score similarity synopsis image_url
      ∈ (main build_model not_found_message inp s).1.1.
Proof.
  intros Hin.
  set (Q := fun evs : list event =>
              forall t, AddBookmark t ∈ evs ->
                logged_in s = true /\ bookmark_clicked inp t = true /\
                exists g sc sim syn img, Card t g sc sim syn img ∈ evs).
  assert (Q []) as Hnil.
  { intros t Ht. by apply elem_of_nil in Ht. }
  assert (forall a b, Q a -> Q b -> Q (a ++ b)) as Happ.
  { intros a b Ha Hb t Ht. apply elem_of_app in Ht as [Ht|Ht].
    - destruct (Ha t Ht) as (? & ? & g & sc & sim & syn & img & Hc).
      repeat split; try done. exists g, sc, sim, syn, img. apply elem_of_app. by left.
    - destruct (Hb t Ht) as (? & ? & g & sc & sim & syn & img & Hc).
      repeat split; try done. exists g, sc, sim, syn, img. apply elem_of_app. by right. }
  destruct (main_respects Q Hnil Happ s inp) with (s := s) as [Hall _].
  - intros e He t Ht. apply list_elem_of_singleton in Ht. subst e. done.
  - intros s1 reg t g sc sim syn img (Hlog & _ & _).
    destruct (display_anime_card_cases inp reg t g sc sim syn img s1)
      as (evs & o & -> & [->|[[r ->]|[->|[-> [Hl Hc]]]]]); simpl; intros t' Ht';
      rewrite ?elem_of_cons, ?elem_of_nil in Ht';
      try (by destruct Ht' as [|[]]); try done.
    destruct Ht' as [|[[= ->]|[]]]; [done |].
    split; [congruence |]. split; [done |].
    eexists _, _, _, _, _. by left.
  - intros _ _ _ _ t Ht. apply list_elem_of_singleton in Ht. discriminate.
  - apply session_kept_refl.
  - apply (Hall _ Hin).
Qed.

(** X9: the bookmark store is asked to remove titles only from the Bookmark
    view, after the reader pressed the button, and with the non-empty
    selection of the reader; a view without bookmarks never asks. *)
Theorem remove_bookmarks_guarded (inp : Inputs) (s : Session) (titles : list string) :
  RemoveBookmarks titles ∈ (main build_model not_found_message inp s).1.1 ->
  menu_choice inp = Bookmark /\
  delete_clicked inp = true /\
  titles = selected_to_delete inp /\
  titles <> [] /\
  stored_bookmarks inp <> [].
Proof.
  intros Hin.
  set (P := fun e => match e with
                     | RemoveBookmarks l =>
                         menu_choice inp = Bookmark /\ delete_clicked inp = true /\
                         l = selected_to_delete inp /\ l <> [] /\
                         stored_bookmarks inp <> []
                     | _ => True
                     end).
  destruct (Forall_nil_app P) as [Hnil Happ].
  destruct (main_respects (Forall P) Hnil Happ s inp) with (s := s) as [Hall _].
  - intros e He. constructor; [| constructor]. by destruct e.
  - intros s1 reg t g sc sim syn img _.
    destruct (display_anime_card_cases inp reg t g sc sim syn img s1)
      as (evs & o & -> & [->|[[r ->]|[->|[-> _]]]]); simpl; by repeat constructor.
  - intros ? ? ? ?. by repeat constructor.
  - apply session_kept_refl.
  - rewrite Forall_forall in Hall. apply (Hall _ Hin).
Qed.

End PageFacts.

(** ** The Bookmark view, card by card *)

Section BookmarkFacts.
Context {FL : Float} {RT : Runtime}.

Ltac script_step :=
  unfold mbind, M_bind, mret, M_ret, bind, ret, emit, raise, st_stop,
    get_session, put_session; simpl.

Lemma getfield_row (df : DataFrame) (i : nat) (name : string) (s : Session) :
  df_wf df -> is_Some (df_cols df !! name) -> (i < df_len df)%nat ->
  exists c, getfield (row_at df i) name s = ([], s, Ret c) /\
            df_cols df !! name ≫= (fun col => col !! i) = Some c.
Proof.
  intros Hwf [col Hcol] Hi. unfold getfield. rewrite row_at_lookup, Hcol. simpl.
  destruct (lookup_lt_is_Some_2 col i) as [c Hc].
  { by rewrite (Hwf _ _ Hcol). }
  rewrite Hc. by exists c.
Qed.

Lemma bookmark_lookup_found (df : DataFrame) (title : string) (s : Session) :
  Str title ∈ title_column df ->
  exists i,
    bookmark_lookup df title s = ([], s, Ret (row_at df i)) /\
    title_column df !! i = Some (Str title) /\
    (forall j, (j < i)%nat -> title_column df !! j <> Some (Str title)).
Proof.
  unfold title_column. intros Hin.
  destruct (df_cols df !! "title") as [titles|] eqn:Hcol; simpl in *.
  2:{ by apply elem_of_nil in Hin. }
  apply list_elem_of_lookup in Hin as [j Hj].
  destruct (first_true_le (exact_mask title titles) j) as (i & Hi & _).
  { by apply exact_mask_lookup. }
  exists i. split; [| split].
  - unfold bookmark_lookup, getitem. rewrite Hcol. script_step.
    by rewrite (iloc0_filter_found _ _ _ _ Hi).
  - apply exact_mask_lookup. by apply first_true_Some in Hi as [Hi _].
  - intros k Hk Hin. apply exact_mask_lookup in Hin.
    apply first_true_Some in Hi as [_ Hi]. specialize (Hi k Hk). congruence.
Qed.

Lemma bookmark_lookup_missing (df : DataFrame) (title : string) (s : Session) :
  is_Some (df_cols df !! "title") ->
  Str title ∉ title_column df ->
  bookmark_lookup df title s =
    ([], s, Raise (IndexError "single positional indexer is out-of-bounds")).
Proof.
  unfold title_column. intros [titles Hcol] Hnot. rewrite Hcol in Hnot. simpl in Hnot.
  assert (first_true (exact_mask title titles) = None) as Hk.
  { apply first_true_None. intros j Hj. apply exact_mask_lookup in Hj.
    apply Hnot. apply list_elem_of_lookup. eauto. }
  unfold bookmark_lookup, getitem. rewrite Hcol. script_step.
  by rewrite (iloc0_filter_missing _ _ _ Hk).
Qed.

(** The fields that the card of a bookmark reads, for a bookmark that the
    catalog has. *)
Lemma bookmark_card_fields (inp : Inputs) (df : DataFrame)
    (registered : list string) (title : string) (s : Session) :
  df_wf df -> has_card_columns df ->
  Str title ∈ title_column df ->
  exists i genres score synopsis image_url,
    (title_column df !! i = Some (Str title) /\
     forall j, (j < i)%nat -> title_column df !! j <> Some (Str title)) /\
    df_cols df !! "genres" ≫= (fun col => col !! i) = Some genres /\
    df_cols df !! "score" ≫= (fun col => col !! i) = Some score /\
    df_cols df !! "synopsis" ≫= (fun col => col !! i) = Some synopsis /\
    df_cols df !! "image_url" ≫= (fun col => col !! i) = Some image_url /\
    bookmark_card inp df registered title s =
      display_anime_card inp registered (Str title) genres score (Num f_one)
        synopsis image_url s.
Proof.
  intros Hwf Hcols Hin.
  destruct (bookmark_lookup_found df title s Hin) as (i & Hlook & Hi & Hfirst).
  assert (i < df_len df)%nat as Hlt.
  { unfold title_column in Hi.
    destruct (df_cols df !! "title") as [titles|] eqn:Hcol; simpl in Hi; [| done].
    rewrite <- (Hwf _ _ Hcol). by eapply lookup_lt_Some. }
  assert (getfield (row_at df i) "title" s = ([], s, Ret (Str title))) as Ht.
  { unfold getfield. rewrite row_at_lookup. unfold title_column in Hi.
    destruct (df_cols df !! "title") as [titles|]; simpl in *; [| done].
    by rewrite Hi. }
  destruct (getfield_row df i "genres" s Hwf) as (g & Hg & Hg');
    [apply Hcols; set_solver | done |].
  destruct (getfield_row df i "score" s Hwf) as (sc & Hsc & Hsc');
    [apply Hcols; set_solver | done |].
  destruct (getfield_row df i "synopsis" s Hwf) as (syn & Hsyn & Hsyn');
    [apply Hcols; set_solver | done |].
  destruct (getfield_row df i "image_url" s Hwf) as (img & Him & Him');
    [apply Hcols; set_solver | done |].
  exists i, g, sc, syn, img. do 5 (split; [done |]).
  unfold bookmark_card.
  rewrite (bind_quiet _ _ _ _ _ Hlook), (bind_quiet _ _ _ _ _ Ht),
    (bind_quiet _ _ _ _ _ Hg), (bind_quiet _ _ _ _ _ Hsc),
    (bind_quiet _ _ _ _ _ Hsyn), (bind_quiet _ _ _ _ _ Him).
  done.
Qed.

(** A card that can be drawn: the image is one that Streamlit shows, the
    score and the similarity are no texts, and the key of the button is
    free. *)
Lemma display_anime_card_drawn (inp : Inputs) (registered : list string)
    (title genres score similarity synopsis image_url : cell) (s : Session) :
  image_error (as_text image_url) = None ->
  as_text score = None ->
  as_text similarity = None ->
  (logged_in s = true -> bookmark_key title ∉ registered) ->
  display_anime_card inp registered title genres score similarity synopsis image_url s =
    (Card title genres score similarity
       (if notna synopsis then synopsis else Str "Sinopsis tidak tersedia") image_url ::
       (if logged_in s && bookmark_clicked inp title then [AddBookmark title] else []),
     s,
     Ret (if logged_in s then bookmark_key title :: registered else registered)).
Proof.
  intros Himg Hscore Hsim Hkey. unfold display_anime_card, st_image. rewrite Himg.
  destruct score; try discriminate; destruct similarity; try discriminate;
    script_step; destruct (logged_in s); simpl; try done;
    rewrite bool_decide_eq_false_2 by auto; simpl;
    by destruct (bookmark_clicked inp title).
Qed.

Lemma bookmark_key_inj (a b : string) :
  bookmark_key (Str a) = bookmark_key (Str b) -> a = b.
Proof. unfold bookmark_key, py_str. cbn. intros Heq. by simplify_eq. Qed.

End BookmarkFacts.

Section BookmarkViewFacts.
Context {FL : Float} {RT : Runtime}.

Ltac script_step :=
  unfold mbind, M_bind, mret, M_ret, bind, ret, emit, raise, st_stop,
    get_session, put_session; simpl.

Lemma bookmark_card_found (inp : Inputs) (df : DataFrame)
    (registered : list string) (title : string) (s : Session) :
  df_wf df -> has_card_columns df -> drawable df ->
  Str title ∈ title_column df ->
  (logged_in s = true -> bookmark_key (Str title) ∉ registered) ->
  exists genres score synopsis image_url,
    bookmark_card inp df registered title s =
      (Card (Str title) genres score (Num f_one) synopsis image_url ::
         (if logged_in s && bookmark_clicked inp (Str title)
          then [AddBookmark (Str title)] else []),
       s,
       Ret (if logged_in s then bookmark_key (Str title) :: registered else registered)).
Proof.
  intros Hwf Hcols [Himages Hscores] Hin Hkey.
  destruct (bookmark_card_fields inp df registered title s Hwf Hcols Hin)
    as (i & g & sc & syn & img & _ & _ & Hsc & _ & Himg & ->).
  destruct (df_cols df !! "score") as [scores|] eqn:Hs; [| done].
  destruct (df_cols df !! "image_url") as [images|] eqn:Hi; [| done].
  simpl in Hsc, Himg.
  specialize (Himages _ eq_refl). specialize (Hscores _ eq_refl).
  rewrite Forall_forall in Himages, Hscores.
  eexists g, sc, _, img. apply display_anime_card_drawn; try done.
  - apply Himages. apply list_elem_of_lookup. eauto.
  - apply Hscores. apply list_elem_of_lookup. eauto.
Qed.

Lemma card_titles_app (a b : list event) :
  card_titles (a ++ b) = card_titles a ++ card_titles b.
Proof. unfold card_titles. apply omap_app. Qed.

Lemma card_titles_card (title : cell) (inp : Inputs) (s : Session)
    (genres score similarity synopsis image_url : cell) :
  card_titles
    (Card title genres score similarity synopsis image_url ::
       (if logged_in s && bookmark_clicked inp title then [AddBookmark title] else []))
  = [title].
Proof. by destruct (logged_in s && bookmark_clicked inp title). Qed.

Lemma bind_run {A B} (m : M A) (f : A -> M B) (s s1 : Session)
    (evs : list event) (a : A) :
  m s = (evs, s1, Ret a) ->
  (m ≫= f) s = (evs ++ (f a s1).1.1, (f a s1).1.2, (f a s1).2).
Proof.
  intros Hm. unfold mbind, M_bind, bind. rewrite Hm.
  by destruct (f a s1) as [[ev2 s2] o].
Qed.

Lemma bind_raise {A B} (m : M A) (f : A -> M B) (s s1 : Session)
    (evs : list event) (e : exn) :
  m s = (evs, s1, Raise e) -> (m ≫= f) s = (evs, s1, Raise e).
Proof. intros Hm. unfold mbind, M_bind, bind. by rewrite Hm. Qed.

Lemma fold_each_app_run {A S} (l1 l2 : list A) (body : S -> A -> M S) :
  forall acc s evs s1 acc1,
    fold_each l1 acc body s = (evs, s1, Ret acc1) ->
    fold_each (l1 ++ l2) acc body s =
      (evs ++ (fold_each l2 acc1 body s1).1.1,
       (fold_each l2 acc1 body s1).1.2,
       (fold_each l2 acc1 body s1).2).
Proof.
  induction l1 as [|x l1 IH]; intros acc s evs s1 acc1 Hrun.
  - injection Hrun as <- <- <-. simpl.
    by destruct (fold_each l2 acc body s) as [[ev2 s2] o].
  - simpl in *. unfold mbind, M_bind, bind in *.
    destruct (body acc x s) as [[ev0 s0] [acc0|e|]]; try discriminate.
    destruct (fold_each l1 acc0 body s0) as [[ev1 s1'] o1] eqn:Hrest.
    injection Hrun as <- <- ->.
    rewrite (IH _ _ _ _ _ Hrest).
    destruct (fold_each l2 acc1 body s1') as [[ev2 s2] o2]. simpl.
    by rewrite (assoc_L (++)).
Qed.

(** The keys that the buttons of the cards of some bookmarks take. *)
Lemma fold_each_cards (inp : Inputs) (df : DataFrame) (s : Session) :
  df_wf df -> has_card_columns df -> drawable df ->
  forall bookmarks registered,
    (forall b, b ∈ bookmarks -> Str b ∈ title_column df) ->
    (logged_in s = true ->
       NoDup bookmarks /\
       forall b, b ∈ bookmarks -> bookmark_key (Str b) ∉ registered) ->
    exists evs,
      fold_each bookmarks registered (bookmark_card inp df) s =
        (evs, s,
         Ret (if logged_in s
              then reverse ((fun b => bookmark_key (Str b)) <$> bookmarks) ++ registered
              else registered)) /\
      card_titles evs = Str <$> bookmarks.
Proof.
  intros Hwf Hcols Hdraw.
  induction bookmarks as [|b bs IH]; intros registered Hall Hkeys.
  - exists []. split; [| done]. simpl. by destruct (logged_in s).
  - destruct (bookmark_card_found inp df registered b s Hwf Hcols Hdraw)
      as (g & sc & syn & img & Hcard).
    { apply Hall. by left. }
    { intros Hlog. apply (Hkeys Hlog). by left. }
    destruct (IH (if logged_in s then bookmark_key (Str b) :: registered else registered))
      as (evs & Hrest & Htitles).
    { intros b' Hb'. apply Hall. by right. }
    { intros Hlog. destruct (Hkeys Hlog) as [Hnd Hfree]. rewrite Hlog.
      apply NoDup_cons in Hnd as [Hb Hnd]. split; [done |].
      intros b' Hb' Hin. apply elem_of_cons in Hin as [Heq|Hin].
      - apply bookmark_key_inj in Heq. congruence.
      - apply (Hfree b'); [by right | done]. }
    exists ((Card (Str b) g sc (Num f_one) syn img ::
               (if logged_in s && bookmark_clicked inp (Str b)
                then [AddBookmark (Str b)] else [])) ++ evs).
    split.
    + simpl. rewrite (bind_run _ _ _ _ _ _ Hcard), Hrest. simpl.
      destruct (logged_in s); [| done].
      by rewrite reverse_cons, <- (assoc_L (++)).
    + rewrite card_titles_app, card_titles_card, Htitles. done.
Qed.

(** The Bookmark view around its loop: a heading and, at most, the call
    that removes bookmarks or the note that none was selected. *)
Lemma bookmark_view_run (inp : Inputs) (df : DataFrame) (s s' : Session)
    (evs : list event) (o : outcome (list string)) :
  stored_bookmarks inp <> [] ->
  fold_each (stored_bookmarks inp) [] (bookmark_card inp df) s = (evs, s', o) ->
  exists pre,
    card_titles pre = [] /\
    bookmark_view inp df s =
      (pre ++ evs, s', match o with Ret _ => Ret tt | Raise e => Raise e | Stop => Stop end).
Proof.
  intros Hne Hloop. unfold bookmark_view.
  destruct (stored_bookmarks inp) as [|b bs]; [done |].
  remember (fold_each (b :: bs) [] (bookmark_card inp df)) as loop.
  unfold mbind, M_bind, bind.
  destruct (delete_clicked inp); [destruct (selected_to_delete inp) |];
    simpl; rewrite Hloop; destruct o; simpl; rewrite ?app_nil_r.
  1-3: by exists [Subheader "Daftar Bookmark Anda";
                  InfoMsg "Tidak ada bookmark yang dipilih untuk dihapus."].
  1-3: by eexists [Subheader "Daftar Bookmark Anda"; RemoveBookmarks _].
  all: by exists [Subheader "Daftar Bookmark Anda"].
Qed.

(** X11: on a loaded catalog that has every bookmarked title and all of
    whose cards can be drawn (images that the page can show, scores that
    are no texts), with no bookmark stored twice for a reader who is logged
    in, the Bookmark view ends normally and shows one card per bookmark, in
    the order of the bookmarks, under the stored title. *)
Theorem bookmark_view_shows_every_bookmark (inp : Inputs) (df : DataFrame) (s : Session) :
  df_wf df -> has_card_columns df -> drawable df ->
  (forall b, b ∈ stored_bookmarks inp -> Str b ∈ title_column df) ->
  (logged_in s = true -> NoDup (stored_bookmarks inp)) ->
  exists evs,
    bookmark_view inp df s = (evs, s, Ret tt) /\
    card_titles evs = Str <$> stored_bookmarks inp.
Proof.
  intros Hwf Hcols Hdraw Hall Hnd.
  destruct (decide (stored_bookmarks inp = [])) as [Hnil|Hne].
  { unfold bookmark_view. rewrite Hnil. by eexists. }
  destruct (fold_each_cards inp df s Hwf Hcols Hdraw (stored_bookmarks inp) [] Hall)
    as (evs & Hloop & Htitles).
  { intros Hlog. split; [by apply Hnd |]. intros b _. apply not_elem_of_nil. }
  destruct (bookmark_view_run inp df s s evs _ Hne Hloop) as (pre & Hpre & Hview).
  exists (pre ++ evs). split; [done |].
  by rewrite card_titles_app, Hpre, Htitles.
Qed.

(** X12: on such a catalog a bookmark that the catalog does not have ends
    the Bookmark view with [IndexError]: the cards of the bookmarks before
    it are on the page, those of the bookmarks after it are not. *)
Theorem bookmark_view_stops_at_first_missing (inp : Inputs) (df : DataFrame)
    (s : Session) (found : list string) (missing : string) (rest : list string) :
  df_wf df -> has_card_columns df -> drawable df ->
  stored_bookmarks inp = found ++ missing :: rest ->
  (forall b, b ∈ found -> Str b ∈ title_column df) ->
  (logged_in s = true -> NoDup found) ->
  Str missing ∉ title_column df ->
  exists evs,
    bookmark_view inp df s
      = (evs, s, Raise (IndexError "single positional indexer is out-of-bounds")) /\
    card_titles evs = Str <$> found.
Proof.
  intros Hwf Hcols Hdraw Hstored Hall Hnd Hmiss.
  destruct (fold_each_cards inp df s Hwf Hcols Hdraw found [] Hall)
    as (evs & Hfound & Htitles).
  { intros Hlog. split; [by apply Hnd |]. intros b _. apply not_elem_of_nil. }
  pose proof (fold_each_app_run found (missing :: rest) _ _ _ _ _ _ Hfound) as Hloop.
  rewrite <- Hstored in Hloop.
  assert (forall registered,
    fold_each (missing :: rest) registered (bookmark_card inp df) s =
      ([], s, Raise (IndexError "single positional indexer is out-of-bounds")))
    as Hstop.
  { intros registered. simpl. apply bind_raise. unfold bookmark_card.
    apply bind_raise. apply bookmark_lookup_missing; [| done].
    apply Hcols. by left. }
  rewrite Hstop in Hloop. simpl in Hloop. rewrite app_nil_r in Hloop.
  assert (stored_bookmarks inp <> []) as Hne.
  { rewrite Hstored. by destruct found. }
  destruct (bookmark_view_run inp df s s evs _ Hne Hloop) as (pre & Hpre & Hview).
  exists (pre ++ evs). split; [done |].
  by rewrite card_titles_app, Hpre, Htitles.
Qed.

(** X13: the loader does not ask for a synopsis column, but a card does: on
    a catalog without it the card of a bookmark that the catalog has raises
    [KeyError] before anything is shown, whatever cards came before it. *)
Theorem bookmark_card_needs_synopsis (inp : Inputs) (df : DataFrame)
    (registered : list string) (title : string) (s : Session) :
  df_wf df ->
  is_Some (df_cols df !! "genres") ->
  is_Some (df_cols df !! "score") ->
  df_cols df !! "synopsis" = None ->
  Str title ∈ title_column df ->
  bookmark_card inp df registered title s = ([], s, Raise (KeyError "synopsis")).
Proof.
  intros Hwf Hgenres Hscore Hsyn Hin.
  destruct (bookmark_lookup_found df title s Hin) as (i & Hlook & Hi & _).
  assert (i < df_len df)%nat as Hlt.
  { unfold title_column in Hi.
    destruct (df_cols df !! "title") as [titles|] eqn:Hcol; simpl in Hi; [| done].
    rewrite <- (Hwf _ _ Hcol). by eapply lookup_lt_Some. }
  assert (getfield (row_at df i) "title" s = ([], s, Ret (Str title))) as Ht.
  { unfold getfield. rewrite row_at_lookup. unfold title_column in Hi.
    destruct (df_cols df !! "title") as [titles|]; simpl in *; [| done].
    by rewrite Hi. }
  destruct (getfield_row df i "genres" s Hwf Hgenres Hlt) as (g & Hg & _).
  destruct (getfield_row df i "score" s Hwf Hscore Hlt) as (sc & Hsc & _).
  assert (getfield (row_at df i) "synopsis" s = ([], s, Raise (KeyError "synopsis"))) as Hs.
  { unfold getfield. rewrite row_at_lookup, Hsyn. done. }
  unfold bookmark_card.
  rewrite (bind_quiet _ _ _ _ _ Hlook), (bind_quiet _ _ _ _ _ Ht),
    (bind_quiet _ _ _ _ _ Hg), (bind_quiet _ _ _ _ _ Hsc).
  by apply bind_raise.
Qed.

(** X18: the card of a bookmark shows the first row of the catalog that has
    its title; when the image of that row is one that the page cannot show, the
    card raises before it has drawn anything. *)
Theorem bookmark_card_needs_image (inp : Inputs) (df : DataFrame)
    (registered : list string) (title : string) (s : Session)
    (i : nat) (images : list cell) (image_url : cell) (msg : string) :
  df_wf df -> has_card_columns df ->
  title_column df !! i = Some (Str title) ->
  (forall j, (j < i)%nat -> title_column df !! j <> Some (Str title)) ->
  df_cols df !! "image_url" = Some images ->
  images !! i = Some image_url ->
  image_error (as_text image_url) = Some msg ->
  bookmark_card inp df registered title s = ([], s, Raise (ImageError msg)).
Proof.
  intros Hwf Hcols Hi Hfirst Himages Himage Herr.
  destruct (bookmark_card_fields inp df registered title s Hwf Hcols)
    as (k & g & sc & syn & img & [Hk Hkfirst] & _ & _ & _ & Himg & ->).
  { apply list_elem_of_lookup. eauto. }
  assert (k = i) as ->.
  { destruct (lt_eq_lt_dec k i) as [[Hlt|Heq]|Hlt]; [| done |].
    - by destruct (Hfirst k Hlt).
    - by destruct (Hkfirst i Hlt). }
  rewrite Himages in Himg. simpl in Himg. rewrite Himage in Himg.
  injection Himg as <-.
  unfold display_anime_card, st_image. rewrite Herr. done.
Qed.

(** X19: a bookmark stored twice: for a reader who is logged in the second card
    of the title is drawn, but its button asks for the key that the button
    of the first card took, and the view ends there with an exception, with
    no card for the bookmarks that follow. *)
Theorem bookmark_view_stops_at_repeated_bookmark (inp : Inputs) (df : DataFrame)
    (s : Session) (before : list string) (repeated : string) (rest : list string) :
  df_wf df -> has_card_columns df -> drawable df ->
  logged_in s = true ->
  stored_bookmarks inp = before ++ repeated :: rest ->
  (forall b, b ∈ before -> Str b ∈ title_column df) ->
  NoDup before ->
  repeated ∈ before ->
  exists evs,
    bookmark_view inp df s =
      (evs, s,
       Raise (DuplicateWidgetKey (duplicate_key_error (bookmark_key (Str repeated))))) /\
    card_titles evs = Str <$> (before ++ [repeated]).
Proof.
  intros Hwf Hcols [Himages Hscores] Hlog Hstored Hall Hnd Hrep.
  destruct (fold_each_cards inp df s Hwf Hcols (conj Himages Hscores) before [] Hall)
    as (evs & Hfound & Htitles).
  { intros _. split; [done |]. intros b _. apply not_elem_of_nil. }
  rewrite Hlog in Hfound.
  pose proof (fold_each_app_run before (repeated :: rest) _ _ _ _ _ _ Hfound) as Hloop.
  rewrite <- Hstored in Hloop.
  destruct (bookmark_card_fields inp df
              (reverse ((fun b => bookmark_key (Str b)) <$> before) ++ [])
              repeated s Hwf Hcols (Hall _ Hrep))
    as (i & g & sc & syn & img & _ & _ & Hsc & _ & Himg & Hcard).
  destruct (df_cols df !! "score") as [scores|] eqn:Hs; [| done].
  destruct (df_cols df !! "image_url") as [images|] eqn:Hi; [| done].
  simpl in Hsc, Himg.
  specialize (Himages _ eq_refl). specialize (Hscores _ eq_refl).
  rewrite Forall_forall in Himages, Hscores.
  assert (image_error (as_text img) = None) as Himg_ok.
  { apply Himages. apply list_elem_of_lookup. eauto. }
  assert (as_text sc = None) as Hsc_ok.
  { apply Hscores. apply list_elem_of_lookup. eauto. }
  assert (bookmark_key (Str repeated)
            ∈ reverse ((fun b => bookmark_key (Str b)) <$> before) ++ []) as Hkey.
  { rewrite app_nil_r, elem_of_reverse. apply list_elem_of_fmap. eauto. }
  assert (fold_each (repeated :: rest)
            (reverse ((fun b => bookmark_key (Str b)) <$> before) ++ [])
            (bookmark_card inp df) s =
          ([Card (Str repeated) g sc (Num f_one)
              (if notna syn then syn else Str "Sinopsis tidak tersedia") img],
           s,
           Raise (DuplicateWidgetKey (duplicate_key_error (bookmark_key (Str repeated))))))
    as Hstop.
  { simpl. apply bind_raise. rewrite Hcard.
    unfold display_anime_card, st_image. rewrite Himg_ok.
    destruct sc; try discriminate; script_step; rewrite Hlog;
      by rewrite bool_decide_eq_true_2. }
  rewrite Hstop in Hloop. simpl in Hloop.
  assert (stored_bookmarks inp <> []) as Hne.
  { rewrite Hstored. by destruct before. }
  destruct (bookmark_view_run inp df s s _ _ Hne Hloop) as (pre & Hpre & Hview).
  eexists. split; [exact Hview |].
  rewrite !card_titles_app, Hpre, Htitles, fmap_app. done.
Qed.

End BookmarkViewFacts.


(** ** From one run to the next *)

Section SelectboxFacts.
Context {FL : Float} {RT : Runtime}.

Ltac script_step :=
  unfold mbind, M_bind, mret, M_ret, bind, ret, emit, raise, st_stop,
    get_session, put_session; simpl.

(** X22: on a catalog with at least one item and a text for every title, the
    selectbox returns a title of the catalog whatever the widget holds, and
    the title that the widget holds when that is one of the catalog; it shows
    nothing and leaves the session alone. *)
Theorem selectbox_gives_a_stored_title (inp : Inputs) (df : DataFrame)
    (s : Session) (titles : list cell) :
  df_cols df !! "title" = Some titles ->
  titles <> [] ->
  Forall (fun c => is_Some (as_text c)) titles ->
  exists t,
    select_title inp df s = ([], s, Ret (Text t)) /\
    Str t ∈ titles /\
    (Str (selected_anime inp) ∈ titles -> t = selected_anime inp).
Proof.
  intros Htitles Hne Hall.
  assert (forall u, u ∈ omap as_text titles <-> Str u ∈ titles) as Htexts.
  { intros u. rewrite list_elem_of_omap. split.
    - intros (c & Hc & Hu). destruct c; try discriminate. by injection Hu as ->.
    - intros Hu. by exists (Str u). }
  unfold select_title, getitem. rewrite Htitles.
  rewrite (bind_quiet (mret titles) _ s s titles eq_refl).
  unfold title_options.
  destruct (omap as_text titles) as [|t0 texts] eqn:Homap.
  { destruct titles as [|c titles]; [done |].
    apply Forall_cons in Hall as [[t Ht] _]. destruct c; discriminate. }
  assert (forall u, u ∈ sorted (remove_dups (t0 :: texts)) <-> Str u ∈ titles) as Hopt.
  { intros u. by rewrite elem_of_sorted, elem_of_remove_dups, Htexts. }
  remember (sorted (remove_dups (t0 :: texts))) as options eqn:Hoptions.
  clear Hoptions.
  rewrite (proj2 (forallb_forall _ titles)).
  2:{ intros c Hc. apply bool_decide_eq_true_2.
      rewrite Forall_forall in Hall. apply Hall. by apply list_elem_of_In. }
  script_step. unfold st_selectbox.
  destruct options as [|first rest].
  { assert (t0 ∈ @nil string) as Hin.
    { apply Hopt, Htexts. by left. }
    by apply elem_of_nil in Hin. }
  destruct (bool_decide (selected_anime inp ∈ first :: rest)) eqn:Hheld.
  - exists (selected_anime inp). split; [done |]. split; [| done].
    apply Hopt. by apply (bool_decide_eq_true_1 _).
  - exists first. split; [done |]. split.
    + apply Hopt. by left.
    + intros Hstored. apply Hopt in Hstored.
      apply (bool_decide_eq_false_1 _) in Hheld. done.
Qed.

End SelectboxFacts.

Section RunFacts.
Context {FL : Float} {RT : Runtime}.
Variable build_model : DataFrame -> list (list float).
Variable not_found_message : string -> string.

Ltac script_step :=
  unfold mbind, M_bind, mret, M_ret, bind, ret, emit, raise, st_stop,
    get_session, put_session; simpl.

(** *** Before the catalog is read *)

(** X14: a style sheet that cannot be opened is not caught as the catalog
    is: the run ends with that exception before the login is looked at. *)
Theorem main_needs_style_sheet (inp : Inputs) (s : Session) (e : exn) :
  css_file inp = inl e ->
  main build_model not_found_message inp s = ([PageConfig], s, Raise e).
Proof.
  intros Hcss. unfold main, local_css. rewrite Hcss. script_step. done.
Qed.

(** X15: while the reader is not logged in the page is the login form and
    nothing else: the catalog is not read, so an unreadable catalog shows no
    error, and no view is drawn. *)
Theorem main_requires_login (inp : Inputs) (s : Session) (css : string) :
  logged_in s = false ->
  css_file inp = inr css ->
  main build_model not_found_message inp s
    = ([PageConfig; Style css; LoginForm], s, Ret tt).
Proof.
  intros Hlog Hcss. unfold main, local_css. rewrite Hcss. script_step.
  by rewrite Hlog.
Qed.

(** *** Running the script again *)

Lemma bind_session {A B} (m : M A) (f : A -> M B) :
  (forall s, (m s).1.2 = s) -> (forall a s, (f a s).1.2 = s) ->
  forall s, ((m ≫= f) s).1.2 = s.
Proof.
  intros Hm Hf s. specialize (Hm s). unfold mbind, M_bind, bind.
  destruct (m s) as [[ev1 s1] [a|e|]]; simpl in *; try done.
  specialize (Hf a s1). destruct (f a s1) as [[ev2 s2] o]. simpl in *. congruence.
Qed.

Lemma fold_each_session {A S} (l : list A) (body : S -> A -> M S) :
  (forall acc x s, (body acc x s).1.2 = s) ->
  forall acc s, (fold_each l acc body s).1.2 = s.
Proof.
  intros Hbody. induction l as [|x l IH]; intros acc s; simpl; [done |].
  revert s. apply bind_session; [apply Hbody | intros acc'; apply IH].
Qed.

Lemma getitem_session (df : DataFrame) (name : string) (s : Session) :
  (getitem df name s).1.2 = s.
Proof. unfold getitem. by destruct (df_cols df !! name). Qed.

Lemma getfield_session (r : Row) (name : string) (s : Session) :
  (getfield r name s).1.2 = s.
Proof. unfold getfield. by destruct (r !! name). Qed.

Lemma iloc0_session (df : DataFrame) (s : Session) : (iloc0 df s).1.2 = s.
Proof. unfold iloc0. by destruct (df_len df). Qed.

Lemma st_image_session (image : cell) (s : Session) : (st_image image s).1.2 = s.
Proof. unfold st_image. by destruct (image_error (as_text image)). Qed.

Lemma bookmark_view_session (inp : Inputs) (df : DataFrame) (s : Session) :
  (bookmark_view inp df s).1.2 = s.
Proof.
  revert s. unfold bookmark_view.
  apply bind_session; [done |]. intros _.
  destruct (stored_bookmarks inp) as [|b bs]; [done |].
  apply bind_session.
  { intros s. destruct (delete_clicked inp); [destruct (selected_to_delete inp) |]; done. }
  intros _. apply bind_session; [| done].
  intros s. apply fold_each_session. clear s. intros registered title.
  unfold bookmark_card.
  apply bind_session.
  { unfold bookmark_lookup. apply bind_session; [apply getitem_session |].
    intros titles. apply iloc0_session. }
  intros row.
  do 5 (apply bind_session; [apply getfield_session | intros ?]).
  apply display_anime_card_session.
Qed.

Lemma recommendations_page_session (inp : Inputs) (df : DataFrame)
    (selected_anime : string) (recommendations : string + DataFrame) (s : Session) :
  (recommendations_page inp df selected_anime recommendations s).1.2 = s.
Proof.
  revert s. unfold recommendations_page.
  destruct recommendations as [msg|recs]; [done |].
  apply bind_session.
  { unfold selected_lookup. apply bind_session; [apply getitem_session |].
    intros titles. apply iloc0_session. }
  intros row.
  apply bind_session; [done | intros _].
  apply bind_session; [apply getfield_session | intros ?].
  apply bind_session; [apply st_image_session | intros _].
  apply bind_session; [done | intros _].
  do 3 (apply bind_session; [apply getfield_session | intros ?];
        apply bind_session; [done | intros _]).
  apply bind_session; [done | intros _].
  apply bind_session; [| done].
  intros s. apply fold_each_session. clear s. intros registered r.
  do 6 (apply bind_session; [apply getfield_session | intros ?]).
  apply display_anime_card_session.
Qed.

(** The selectbox shows nothing by itself and does not look at the
    session. *)
Lemma select_title_run (inp : Inputs) (df : DataFrame) :
  exists o, forall s, select_title inp df s = ([], s, o).
Proof.
  unfold select_title, getitem, title_options.
  destruct (df_cols df !! "title") as [titles|]; [| by eexists].
  script_step.
  destruct (omap as_text titles); [destruct titles; by eexists |].
  destruct (forallb _ titles); by eexists.
Qed.

Lemma rekomendasi_view_unselected (inp : Inputs) (df : DataFrame)
    (cosine_sim : list (list float)) (s : Session) (e : exn) :
  select_title inp df s = ([], s, Raise e) ->
  rekomendasi_view not_found_message inp df cosine_sim s = ([], s, Raise e).
Proof. intros Hsel. unfold rekomendasi_view. by apply bind_raise. Qed.

Lemma rekomendasi_view_rerun (inp : Inputs) (df : DataFrame)
    (cosine_sim : list (list float)) (s : Session) :
  rekomendasi_view not_found_message (without_click inp) df cosine_sim
    (rekomendasi_view not_found_message inp df cosine_sim s).1.2
  = rekomendasi_view not_found_message inp df cosine_sim s /\
  logged_in (rekomendasi_view not_found_message inp df cosine_sim s).1.2 = logged_in s /\
  username (rekomendasi_view not_found_message inp df cosine_sim s).1.2 = username s.
Proof.
  destruct (select_title_run inp df) as [[selected|e|] Hsel].
  - set (s' := if recommend_clicked inp
               then {| logged_in := logged_in s; username := username s;
                       show_recommendations := true |}
               else s).
    assert (logged_in s' = logged_in s /\ username s' = username s) as [Hlog Huser].
    { unfold s'. by destruct (recommend_clicked inp). }
    assert (recommend_clicked inp = true -> show_recommendations s' = true) as Hshown.
    { unfold s'. by intros ->. }
    assert ((rekomendasi_view not_found_message inp df cosine_sim s).1.2 = s') as Hsess.
    { rewrite (rekomendasi_view_selected _ inp df cosine_sim s selected (Hsel s)).
      cbv zeta. fold s'.
      destruct (show_recommendations s'); [| done].
      destruct selected; try done. apply recommendations_page_session. }
    rewrite Hsess. split; [| done].
    rewrite (rekomendasi_view_selected _ inp df cosine_sim s selected (Hsel s)).
    rewrite (rekomendasi_view_selected _ (without_click inp) df cosine_sim s' selected
               (Hsel s')).
    cbv zeta. fold s'. simpl recommend_clicked. cbv iota.
    destruct (show_recommendations s'); [| done].
    by destruct selected.
  - rewrite (rekomendasi_view_unselected inp df cosine_sim s e (Hsel s)). simpl.
    split; [| done].
    by apply (rekomendasi_view_unselected (without_click inp)), (Hsel s).
  - assert (forall inp', select_title inp' df = select_title inp df ->
              rekomendasi_view not_found_message inp' df cosine_sim s = ([], s, Stop))
      as Hstop.
    { intros inp' Heq. unfold rekomendasi_view. unfold mbind, M_bind, bind.
      by rewrite Heq, Hsel. }
    rewrite (Hstop inp eq_refl). simpl. split; [| done]. by apply Hstop.
Qed.

Lemma load_data_session (inp : Inputs) (s s2 : Session) :
  load_data inp s2 = ((load_data inp s).1.1, s2, (load_data inp s).2) /\
  (load_data inp s).1.2 = s.
Proof.
  unfold load_data, try_except.
  destruct (csv_file inp) as [e|raw] eqn:Hcsv.
  { by rewrite !(load_body_unreadable inp _ e Hcsv). }
  destruct (df_cols raw !! "score") as [score|] eqn:Hs.
  2:{ by rewrite !(load_body_no_score inp raw _ Hcsv Hs). }
  destruct (df_cols raw !! "genres") as [genres|] eqn:Hg.
  2:{ by rewrite !(load_body_no_genres inp raw _ score Hcsv Hs Hg). }
  destruct (df_cols raw !! "synopsis_clean") as [syn|] eqn:Hc.
  2:{ by rewrite !(load_body_no_synopsis_clean inp raw _ score genres Hcsv Hs Hg Hc). }
  by rewrite !(load_body_ok inp raw _ score genres syn Hcsv Hs Hg Hc).
Qed.

(** X16: a run that starts from the session another run left, with the
    same widgets but without the press on the recommendation button, draws
    the same page, ends the same way and leaves the session as it found it: a
    request for recommendations made once is served again without a new
    press. *)
Theorem main_rerun (inp : Inputs) (s : Session) :
  main build_model not_found_message (without_click inp)
    (main build_model not_found_message inp s).1.2
  = main build_model not_found_message inp s.
Proof.
  unfold main, local_css. simpl css_file.
  destruct (css_file inp) as [e|css]; [done |].
  script_step.
  destruct (logged_in s) eqn:Hlog; simpl; [| by rewrite Hlog].
  destruct (username s) as [name|] eqn:Huser; simpl; [| by rewrite Hlog, Huser].
  change (load_data (without_click inp)) with (load_data inp).
  destruct (load_data_session inp s s) as [_ Hs].
  destruct (load_data inp s) as [[evs s1] [df|e|]] eqn:Hload; simpl in Hs; subst s1.
  - simpl menu_choice. destruct (menu_choice inp).
    + destruct (rekomendasi_view_rerun inp df (build_model df) s)
        as (Hre & Hlog2 & Huser2).
      destruct (rekomendasi_view not_found_message inp df (build_model df) s)
        as [[evs2 s2] o2] eqn:Hview. simpl in *.
      rewrite Hlog2, Hlog, Huser2, Huser. simpl.
      destruct (load_data_session inp s s2) as [-> _]. rewrite Hload. simpl.
      rewrite Hre. done.
    + pose proof (bookmark_view_session inp df s) as Hsess.
      change (bookmark_view (without_click inp)) with (bookmark_view inp).
      destruct (bookmark_view inp df s) as [[evs2 s2] o2] eqn:Hview.
      simpl in *. subst s2. rewrite Hlog, Huser. simpl. rewrite Hload. simpl.
      by rewrite Hview.
  - simpl. rewrite Hlog, Huser. simpl. by rewrite Hload.
  - simpl. rewrite Hlog, Huser. simpl. by rewrite Hload.
Qed.

(** The page above the menu for a reader who is logged in. *)
Lemma main_menu (inp : Inputs) (s : Session) (css name : string) (df : DataFrame) :
  css_file inp = inr css ->
  logged_in s = true ->
  username s = Some name ->
  load_data inp s = ([], s, Ret df) ->
  menu_choice inp = Rekomendasi ->
  main build_model not_found_message inp s =
    ([PageConfig; Style css; SidebarUser name; LogoutControl; PageTitle] ++
       (rekomendasi_view not_found_message inp df (build_model df) s).1.1,
     (rekomendasi_view not_found_message inp df (build_model df) s).1.2,
     (rekomendasi_view not_found_message inp df (build_model df) s).2).
Proof.
  intros Hcss Hlog Huser Hload Hmenu.
  unfold main, local_css. rewrite Hcss. script_step.
  rewrite Hlog, Huser. simpl. rewrite Hload. simpl. rewrite Hmenu.
  by destruct (rekomendasi_view _ _ _ _ _) as [[evs s'] o].
Qed.

(** X17: on the recommendation menu of a catalog whose titles the selectbox
    can list (every title is a text, or none is), nothing is recommended
    until the button has been pressed once: with no press in this run and
    none recorded in the session, the page stops after its title and the
    session is left as it was. *)
Theorem main_waits_for_request (inp : Inputs) (s : Session)
    (css name : string) (df : DataFrame) (titles : list cell) :
  css_file inp = inr css ->
  logged_in s = true ->
  username s = Some name ->
  load_data inp s = ([], s, Ret df) ->
  menu_choice inp = Rekomendasi ->
  df_cols df !! "title" = Some titles ->
  Forall (fun c => is_Some (as_text c)) titles \/
    Forall (fun c => as_text c = None) titles ->
  recommend_clicked inp = false ->
  show_recommendations s = false ->
  main build_model not_found_message inp s
    = ([PageConfig; Style css; SidebarUser name; LogoutControl; PageTitle], s, Ret tt).
Proof.
  intros Hcss Hlog Huser Hload Hmenu Htitles Htexts Hclick Hshow.
  rewrite (main_menu inp s css name df Hcss Hlog Huser Hload Hmenu).
  assert (exists selected, select_title inp df s = ([], s, Ret selected)) as [sel Hsel].
  { unfold select_title, getitem, title_options. rewrite Htitles. script_step.
    destruct (omap as_text titles) as [|t texts] eqn:Homap.
    - destruct titles; by eexists.
    - destruct Htexts as [Hall|Hnone].
      + rewrite (proj2 (forallb_forall _ titles)); [by eexists |].
        intros c Hc. apply bool_decide_eq_true_2.
        rewrite Forall_forall in Hall. apply Hall. by apply list_elem_of_In.
      + exfalso. assert (t ∈ omap as_text titles) as Hin by (rewrite Homap; by left).
        apply list_elem_of_omap in Hin as (c & Hc & Ht).
        rewrite Forall_forall in Hnone. rewrite (Hnone c Hc) in Ht. done. }
  rewrite (rekomendasi_view_selected _ inp df _ s sel Hsel).
  rewrite Hclick. cbv zeta. by rewrite Hshow.
Qed.

(** X20: the selectbox reads the titles before the button is looked at: on a
    catalog without a title column, which the loader accepts, the
    recommendation menu ends with [KeyError] under the page title, whether
    or not the button is pressed, and the session is left as it was. *)
Theorem main_needs_titles (inp : Inputs) (s : Session)
    (css name : string) (df : DataFrame) :
  css_file inp = inr css ->
  logged_in s = true ->
  username s = Some name ->
  load_data inp s = ([], s, Ret df) ->
  menu_choice inp = Rekomendasi ->
  df_cols df !! "title" = None ->
  main build_model not_found_message inp s
    = ([PageConfig; Style css; SidebarUser name; LogoutControl; PageTitle], s,
       Raise (KeyError "title")).
Proof.
  intros Hcss Hlog Huser Hload Hmenu Htitles.
  rewrite (main_menu inp s css name df Hcss Hlog Huser Hload Hmenu).
  rewrite (rekomendasi_view_unselected inp df _ s (KeyError "title")); [done |].
  unfold select_title, getitem. by rewrite Htitles.
Qed.

(** X21: the options of the selectbox are sorted: a title column that holds a
    text and a missing title ends the recommendation menu with [TypeError]
    under the page title, whether or not the button is pressed. *)
Theorem main_needs_text_titles (inp : Inputs) (s : Session)
    (css name : string) (df : DataFrame) (titles : list cell) (t : string) (c : cell) :
  css_file inp = inr css ->
  logged_in s = true ->
  username s = Some name ->
  load_data inp s = ([], s, Ret df) ->
  menu_choice inp = Rekomendasi ->
  df_cols df !! "title" = Some titles ->
  Str t ∈ titles -> c ∈ titles -> as_text c = None ->
  main build_model not_found_message inp s
    = ([PageConfig; Style css; SidebarUser name; LogoutControl; PageTitle], s,
       Raise (TypeError (sorted_error (as_text <$> titles)))).
Proof.
  intros Hcss Hlog Huser Hload Hmenu Htitles Ht Hc Hnone.
  rewrite (main_menu inp s css name df Hcss Hlog Huser Hload Hmenu).
  rewrite (rekomendasi_view_unselected inp df _ s
             (TypeError (sorted_error (as_text <$> titles)))); [done |].
  unfold select_title, getitem, title_options. rewrite Htitles. script_step.
  destruct (omap as_text titles) as [|t' texts] eqn:Homap.
  { assert (t ∈ omap as_text titles) as Hin.
    { apply list_elem_of_omap. by exists (Str t). }
    rewrite Homap in Hin. by apply elem_of_nil in Hin. }
  destruct (forallb _ titles) eqn:Hall; [| done].
  rewrite forallb_forall in Hall.
  specialize (Hall c (proj1 (list_elem_of_In _ _) Hc)).
  apply bool_decide_eq_true_1 in Hall. rewrite Hnone in Hall. by destruct Hall.
Qed.

End RunFacts.

(** ** The further theorems at work on the small catalogs *)

Lemma loaded_catalog_wf : df_wf loaded_catalog.
Proof. apply frame_wf. repeat constructor. Qed.

Lemma loaded_catalog_card_columns : has_card_columns loaded_catalog.
Proof.
  intros name Hname. rewrite !elem_of_cons, elem_of_nil in Hname.
  destruct Hname as [->|[->|[->|[->|[->|[]]]]]]; vm_compute; eauto.
Qed.

Lemma loaded_catalog_titles :
  title_column loaded_catalog = [Str "Naruto"; Str "Bleach"; Str "One Piece"].
Proof. vm_compute. reflexivity. Qed.

Lemma load_data_keeps_other_columns_witness :
  df_len loaded_catalog = df_len example_catalog /\
  (forall name,
     name ∉ ["score"; "genres"; "image_url"; "synopsis_clean"] ->
     df_cols loaded_catalog !! name = df_cols example_catalog !! name) /\
  (df_wf example_catalog -> df_wf loaded_catalog).
Proof.
  apply (load_data_keeps_other_columns
           (example_inputs (inr example_catalog) Rekomendasi "Naruto" [])
           example_session example_session [] example_catalog loaded_catalog).
  - vm_compute. reflexivity.
  - reflexivity.
Defined.

Lemma load_data_images_http_witness :
  exists images,
    df_cols loaded_catalog !! "image_url" = Some images /\
    Forall (fun c => exists t, c = Str t /\ String.prefix "http" t = true) images.
Proof.
  apply (load_data_images_http
           (example_inputs (inr example_catalog) Rekomendasi "Naruto" [])
           example_session example_session [] loaded_catalog).
  vm_compute. reflexivity.
Defined.

Lemma load_data_scores_numeric_witness :
  exists scores,
    df_cols loaded_catalog !! "score" = Some scores /\
    Forall (fun c => is_num c = true) scores.
Proof.
  apply (load_data_scores_numeric
           (example_inputs (inr example_catalog) Rekomendasi "Naruto" [])
           example_session example_session [] loaded_catalog).
  vm_compute. reflexivity.
Defined.

Lemma load_data_idempotent_witness :
  load_data (example_inputs (inr loaded_catalog) Bookmark "Bleach" ["Bleach"])
    anonymous_session
  = ([], anonymous_session, Ret loaded_catalog).
Proof.
  apply (load_data_idempotent
           (example_inputs (inr example_catalog) Rekomendasi "Naruto" [])
           (example_inputs (inr loaded_catalog) Bookmark "Bleach" ["Bleach"])
           example_session example_session anonymous_session [] loaded_catalog).
  - vm_compute. reflexivity.
  - reflexivity.
Defined.

Lemma cards_show_a_synopsis_witness :
  Card (Str "Bleach") (Str "Unknown") (Num 0%Q) (Num 1%Q)
       (Str "Sinopsis tidak tersedia") (Str placeholder)
    ∈ (main example_model example_not_found
         (example_inputs (inr example_catalog) Bookmark "Naruto" ["Bleach"])
         example_session).1.1 /\
  isna (Str "Sinopsis tidak tersedia") = false.
Proof.
  assert (Card (Str "Bleach") (Str "Unknown") (Num 0%Q) (Num 1%Q)
               (Str "Sinopsis tidak tersedia") (Str placeholder)
            ∈ (main example_model example_not_found
                 (example_inputs (inr example_catalog) Bookmark "Naruto" ["Bleach"])
                 example_session).1.1) as Hin.
  { vm_compute. repeat constructor. }
  split; [exact Hin |].
  apply (cards_show_a_synopsis example_model example_not_found
           (example_inputs (inr example_catalog) Bookmark "Naruto" ["Bleach"])
           example_session _ _ _ _ _ _ Hin).
Defined.

Lemma add_bookmark_only_on_click_witness :
  AddBookmark (Str "Bleach")
    ∈ (main example_model example_not_found busy_inputs example_session).1.1 /\
  logged_in example_session = true /\
  bookmark_clicked busy_inputs (Str "Bleach") = true /\
  exists genres score similarity synopsis image_url,
    Card (Str "Bleach") genres score similarity synopsis image_url
      ∈ (main example_model example_not_found busy_inputs example_session).1.1.
Proof.
  assert (AddBookmark (Str "Bleach")
            ∈ (main example_model example_not_found busy_inputs example_session).1.1)
    as Hin.
  { vm_compute. repeat constructor. }
  split; [exact Hin |].
  apply (add_bookmark_only_on_click example_model example_not_found
           busy_inputs example_session (Str "Bleach") Hin).
Defined.

Lemma remove_bookmarks_guarded_witness :
  RemoveBookmarks ["Naruto"]
    ∈ (main example_model example_not_found busy_inputs example_session).1.1 /\
  menu_choice busy_inputs = Bookmark /\
  delete_clicked busy_inputs = true /\
  ["Naruto"] = selected_to_delete busy_inputs /\
  ["Naruto"] <> [] /\
  stored_bookmarks busy_inputs <> [].
Proof.
  assert (RemoveBookmarks ["Naruto"]
            ∈ (main example_model example_not_found busy_inputs example_session).1.1)
    as Hin.
  { vm_compute. repeat constructor. }
  split; [exact Hin |].
  apply (remove_bookmarks_guarded example_model example_not_found
           busy_inputs example_session ["Naruto"] Hin).
Defined.

Lemma loaded_catalog_drawable : drawable loaded_catalog.
Proof.
  split; intros col Hcol; vm_compute in Hcol; injection Hcol as <-;
    repeat constructor.
Qed.

Lemma bookmark_view_shows_every_bookmark_witness :
  exists evs,
    bookmark_view busy_inputs loaded_catalog example_session
      = (evs, example_session, Ret tt) /\
    card_titles evs = [Str "Bleach"; Str "Naruto"].
Proof.
  apply (bookmark_view_shows_every_bookmark busy_inputs loaded_catalog example_session).
  - exact loaded_catalog_wf.
  - exact loaded_catalog_card_columns.
  - exact loaded_catalog_drawable.
  - intros b Hb. rewrite loaded_catalog_titles. simpl in Hb.
    rewrite !elem_of_cons, elem_of_nil in Hb.
    destruct Hb as [->|[->|[]]]; [by right; left | by left].
  - intros _. simpl. apply (bool_decide_unpack _). vm_compute. exact I.
Defined.

Lemma bookmark_view_stops_at_first_missing_witness :
  exists evs,
    bookmark_view
      (example_inputs (inr example_catalog) Bookmark "Naruto"
         ["Bleach"; "naruto"; "Naruto"])
      loaded_catalog example_session
      = (evs, example_session,
         Raise (IndexError "single positional indexer is out-of-bounds")) /\
    card_titles evs = [Str "Bleach"].
Proof.
  apply (bookmark_view_stops_at_first_missing
           (example_inputs (inr example_catalog) Bookmark "Naruto"
              ["Bleach"; "naruto"; "Naruto"])
           loaded_catalog example_session ["Bleach"] "naruto" ["Naruto"]).
  - exact loaded_catalog_wf.
  - exact loaded_catalog_card_columns.
  - exact loaded_catalog_drawable.
  - reflexivity.
  - intros b Hb. rewrite loaded_catalog_titles.
    apply list_elem_of_singleton in Hb as ->. by right; left.
  - intros _. apply (bool_decide_unpack _). vm_compute. exact I.
  - rewrite loaded_catalog_titles. rewrite !not_elem_of_cons.
    repeat split; try discriminate. apply not_elem_of_nil.
Defined.

Lemma bookmark_card_needs_synopsis_witness :
  bookmark_card busy_inputs odd_images_catalog ["bookmark_Bleach"] "Naruto"
    example_session
  = ([], example_session, Raise (KeyError "synopsis")).
Proof.
  apply (bookmark_card_needs_synopsis busy_inputs odd_images_catalog
           ["bookmark_Bleach"] "Naruto" example_session).
  - apply frame_wf. repeat constructor.
  - vm_compute. eauto.
  - vm_compute. eauto.
  - vm_compute. reflexivity.
  - assert (title_column odd_images_catalog = [Str "Naruto"; Str "Bleach"]) as ->
      by (vm_compute; reflexivity).
    by left.
Defined.

Lemma local_image_catalog_card_columns : has_card_columns local_image_catalog.
Proof.
  intros name Hname. rewrite !elem_of_cons, elem_of_nil in Hname.
  destruct Hname as [->|[->|[->|[->|[->|[]]]]]]; vm_compute; eauto.
Qed.

Lemma bookmark_card_needs_image_witness :
  bookmark_card busy_inputs local_image_catalog [] "Naruto" example_session
  = ([], example_session, Raise (ImageError "Error opening 'httpd_logo.png'")).
Proof.
  apply (bookmark_card_needs_image busy_inputs local_image_catalog [] "Naruto"
           example_session 0
           [Str "httpd_logo.png"; Str "https://cdn.example/bleach.jpg"]
           (Str "httpd_logo.png")).
  - apply frame_wf. repeat constructor.
  - exact local_image_catalog_card_columns.
  - vm_compute. reflexivity.
  - intros j Hj. lia.
  - vm_compute. reflexivity.
  - reflexivity.
  - vm_compute. reflexivity.
Defined.

Lemma bookmark_view_stops_at_repeated_bookmark_witness :
  exists evs,
    bookmark_view
      (example_inputs (inr example_catalog) Bookmark "Naruto"
         ["Bleach"; "Naruto"; "Bleach"; "One Piece"])
      loaded_catalog example_session
      = (evs, example_session,
         Raise (DuplicateWidgetKey
                  "There are multiple widgets with the same key 'bookmark_Bleach'")) /\
    card_titles evs = [Str "Bleach"; Str "Naruto"; Str "Bleach"].
Proof.
  refine (bookmark_view_stops_at_repeated_bookmark
            (example_inputs (inr example_catalog) Bookmark "Naruto"
               ["Bleach"; "Naruto"; "Bleach"; "One Piece"])
            loaded_catalog example_session ["Bleach"; "Naruto"] "Bleach" ["One Piece"]
            _ _ _ _ _ _ _ _).
  - exact loaded_catalog_wf.
  - exact loaded_catalog_card_columns.
  - exact loaded_catalog_drawable.
  - reflexivity.
  - reflexivity.
  - intros b Hb. rewrite loaded_catalog_titles.
    rewrite !elem_of_cons, elem_of_nil in Hb.
    destruct Hb as [->|[->|[]]]; [by right; left | by left].
  - apply (bool_decide_unpack _). vm_compute. exact I.
  - by left.
Defined.

Lemma main_needs_style_sheet_witness :
  main example_model example_not_found unstyled_inputs anonymous_session
  = ([PageConfig], anonymous_session,
     Raise (IOError "No such file: assets/style.css")).
Proof.
  apply (main_needs_style_sheet example_model example_not_found
           unstyled_inputs anonymous_session). reflexivity.
Defined.

Lemma main_requires_login_witness :
  main example_model example_not_found
    (example_inputs (inl (IOError "No such file")) Rekomendasi "Naruto" ["Bleach"])
    anonymous_session
  = ([PageConfig; Style "body {}"; LoginForm], anonymous_session, Ret tt).
Proof.
  apply (main_requires_login example_model example_not_found
           (example_inputs (inl (IOError "No such file")) Rekomendasi "Naruto" ["Bleach"])
           anonymous_session "body {}"); reflexivity.
Defined.

Lemma main_waits_for_request_witness :
  main example_model example_not_found
    (without_click (example_inputs (inr example_catalog) Rekomendasi "Naruto" []))
    example_session
  = ([PageConfig; Style "body {}"; SidebarUser "wahyu"; LogoutControl; PageTitle],
     example_session, Ret tt).
Proof.
  apply (main_waits_for_request example_model example_not_found
           (without_click (example_inputs (inr example_catalog) Rekomendasi "Naruto" []))
           example_session "body {}" "wahyu" loaded_catalog
           [Str "Naruto"; Str "Bleach"; Str "One Piece"]);
    try (vm_compute; reflexivity).
  left. repeat constructor; by eexists.
Defined.

Lemma main_needs_titles_witness :
  main example_model example_not_found
    (example_inputs (inr untitled_catalog) Rekomendasi "Naruto" [])
    example_session
  = ([PageConfig; Style "body {}"; SidebarUser "wahyu"; LogoutControl; PageTitle],
     example_session, Raise (KeyError "title")).
Proof.
  apply (main_needs_titles example_model example_not_found
           (example_inputs (inr untitled_catalog) Rekomendasi "Naruto" [])
           example_session "body {}" "wahyu" untitled_catalog);
    vm_compute; reflexivity.
Defined.

Lemma main_needs_text_titles_witness :
  main example_model example_not_found
    (example_inputs (inr mixed_titles_catalog) Rekomendasi "Naruto" [])
    example_session
  = ([PageConfig; Style "body {}"; SidebarUser "wahyu"; LogoutControl; PageTitle],
     example_session,
     Raise (TypeError "'<' not supported between instances of 'float' and 'str'")).
Proof.
  refine (main_needs_text_titles example_model example_not_found
            (example_inputs (inr mixed_titles_catalog) Rekomendasi "Naruto" [])
            example_session "body {}" "wahyu" mixed_titles_catalog
            [Str "Naruto"; NaN] "Naruto" NaN _ _ _ _ _ _ _ _ _);
    try (vm_compute; reflexivity).
  - by left.
  - by right; left.
Defined.

Lemma selectbox_gives_a_stored_title_witness :
  exists t,
    select_title (example_inputs (inr example_catalog) Rekomendasi "Gintama" [])
      loaded_catalog example_session
      = ([], example_session, Ret (Text t)) /\
    Str t ∈ [Str "Naruto"; Str "Bleach"; Str "One Piece"] /\
    (Str "Gintama" ∈ [Str "Naruto"; Str "Bleach"; Str "One Piece"] -> t = "Gintama").
Proof.
  refine (selectbox_gives_a_stored_title
            (example_inputs (inr example_catalog) Rekomendasi "Gintama" [])
            loaded_catalog example_session
            [Str "Naruto"; Str "Bleach"; Str "One Piece"] _ _ _).
  - vm_compute. reflexivity.
  - discriminate.
  - repeat constructor; by eexists.
Defined.
